(** * nodeAPI: request validation, authorization gate and response envelopes

    A shallow embedding of the Express service of this repository:
    [src/index.js] (greeting and palindrome endpoints, global error
    handler), [src/middleware/auth.js] (the authorization gate) and
    [src/routes/auth.js] (the account routes).

    JavaScript values are an inductive type, strings are sequences of
    UTF-16 code units, handlers are computations in a state-and-exception
    monad over a world that holds the external collaborator (Firebase Auth
    and Firestore), the log of collaborator calls and the response slot of
    the request. *)

From Stdlib Require Import String Ascii ZArith NArith List Bool Lia.
From stdpp Require Import base option list gmap.
Import ListNotations.

Local Open Scope Z_scope.
Set Warnings "-register-all".

(** ** JavaScript strings *)

(** A JavaScript string is a sequence of 16-bit code units; a character
    outside the basic plane takes two of them (a surrogate pair). *)
Abbreviation jsstring := (list N).

(** A source literal, one code unit per (ASCII) character. *)
Definition js (s : string) : jsstring :=
  List.map N_of_ascii (list_ascii_of_string s).

(** [s.startsWith(p)] *)
Fixpoint startsWith (s p : jsstring) : bool :=
  match p, s with
  | [], _ => true
  | _ :: _, [] => false
  | a :: p', b :: s' => (a =? b)%N && startsWith s' p'
  end.

(** [a === b] on strings *)
Fixpoint str_eqb (a b : jsstring) : bool :=
  match a, b with
  | [], [] => true
  | x :: a', y :: b' => (x =? y)%N && str_eqb a' b'
  | _, _ => false
  end.

(** [s.split(sep)] for a non-empty separator: [skip] counts the code units
    of a separator occurrence still to be dropped, [cur] is the piece being
    collected (in reverse). *)
Fixpoint split_go (sep s : jsstring) (skip : nat) (cur : jsstring)
  : list jsstring :=
  match s with
  | [] => [rev cur]
  | c :: s' =>
      match skip with
      | S k => split_go sep s' k cur
      | O =>
          if startsWith s sep
          then rev cur :: split_go sep s' (length sep - 1) []
          else split_go sep s' O (c :: cur)
      end
  end.

(** [s.split(sep)]; with the empty separator the string falls apart into
    its code units. *)
Definition split (s sep : jsstring) : list jsstring :=
  match sep with
  | [] => List.map (fun c => [c]) s
  | _ :: _ => split_go sep s O []
  end.

(** [pieces.join('')] *)
Definition join_empty (pieces : list jsstring) : jsstring := concat pieces.

(** [word.split('').reverse().join('')], the reversal of both palindrome
    endpoints. *)
Definition reverse_word (word : jsstring) : jsstring :=
  join_empty (rev (split word [])).

(** ** JavaScript values *)

(** The values of parsed JSON, and [undefined].  Numbers are the integers
    (JSON numbers with a fraction are left out). *)
Inductive JsVal : Type :=
| JUndefined
| JNull
| JBool (b : bool)
| JNum (n : Z)
| JStr (s : jsstring)
| JArr (items : list JsVal)
| JObj (fields : list (jsstring * JsVal)).

Abbreviation JsObject := (list (jsstring * JsVal)).

(** ToBoolean *)
Definition truthy (v : JsVal) : bool :=
  match v with
  | JUndefined | JNull => false
  | JBool b => b
  | JNum n => negb (n =? 0)
  | JStr s => match s with [] => false | _ :: _ => true end
  | JArr _ | JObj _ => true
  end.

(** [a || b] *)
Definition js_or (a b : JsVal) : JsVal := if truthy a then a else b.

(** [v !== undefined] *)
Definition is_defined (v : JsVal) : bool :=
  match v with JUndefined => false | _ => true end.

(** [v === 'literal'] *)
Definition strict_eq_str (v : JsVal) (s : jsstring) : bool :=
  match v with JStr t => str_eqb t s | _ => false end.

(** [o.k] on the own properties of an object; [undefined] when absent. *)
Fixpoint obj_get (fs : JsObject) (k : jsstring) : JsVal :=
  match fs with
  | [] => JUndefined
  | (k', v) :: rest => if str_eqb k' k then v else obj_get rest k
  end.

(** [o.k = v]: an existing property keeps its place, a new one goes last. *)
Fixpoint obj_set (fs : JsObject) (k : jsstring) (v : JsVal) : JsObject :=
  match fs with
  | [] => [(k, v)]
  | (k', v') :: rest =>
      if str_eqb k' k then (k', v) :: rest
      else (k', v') :: obj_set rest k v
  end.

(** [Object.keys(o)] *)
Definition obj_keys (fs : JsObject) : list jsstring := List.map fst fs.

(** [k in o], for own properties. *)
Definition has_key (fs : JsObject) (k : jsstring) : bool :=
  existsb (fun kv => str_eqb (fst kv) k) fs.

(** Reading a property of a value that is expected to be an object. *)
Definition field (v : JsVal) (k : jsstring) : JsVal :=
  match v with JObj fs => obj_get fs k | _ => JUndefined end.

Definition has_field (v : JsVal) (k : jsstring) : bool :=
  match v with JObj fs => has_key fs k | _ => false end.

(** [v.length]: strings and arrays have one, an object has it only as an
    own property, other values have none. *)
Definition js_length (v : JsVal) : JsVal :=
  match v with
  | JStr s => JNum (Z.of_nat (length s))
  | JArr l => JNum (Z.of_nat (length l))
  | JObj fs => obj_get fs (js "length")
  | _ => JUndefined
  end.

(** The part of the JavaScript runtime the service leans on: the clock
    behind [new Date().toISOString()], reading after reading, and the
    verdict of the engine on [v < n] for an operand [v] that it first has to
    convert (a string, an array or an object: ToPrimitive, then
    StringToNumber). *)
Record Runtime := mkRuntime {
  iso_time : nat -> jsstring;
  converted_lt : JsVal -> Z -> bool }.

(** [v < n] for a number [n]: [undefined] converts to NaN, and a comparison
    with NaN is false; [null] converts to 0, [true] to 1, [false] to 0. *)
Definition js_lt (rt : Runtime) (v : JsVal) (n : Z) : bool :=
  match v with
  | JNum m => m <? n
  | JUndefined => false
  | JNull => 0 <? n
  | JBool b => (if b then 1 else 0) <? n
  | JStr _ | JArr _ | JObj _ => converted_lt rt v n
  end.

(** ** Responses and errors *)

Record Response := mkResponse { status : Z; body : JsVal }.

(** A thrown value: [name], [code] ([undefined] for the language's own
    errors) and [message]. *)
Record JsError := mkError {
  err_name : jsstring; err_code : JsVal; err_message : jsstring }.

Definition TypeError (msg : string) : JsError :=
  mkError (js "TypeError") JUndefined (js msg).

Definition FirebaseAuthError (code msg : string) : JsError :=
  mkError (js "FirebaseAuthError") (JStr (js code)) (js msg).

(** A Firestore failure carries a numeric status code. *)
Definition FirestoreError (code : Z) (msg : string) : JsError :=
  mkError (js "Error") (JNum code) (js msg).

(** Thrown by Express when a response is written twice. *)
Definition ERR_HTTP_HEADERS_SENT : JsError :=
  mkError (js "Error") (JStr (js "ERR_HTTP_HEADERS_SENT"))
          (js "Cannot set headers after they are sent to the client").

Inductive Result (A : Type) : Type :=
| Ok (a : A)
| Throw (e : JsError).
Arguments Ok {A} a.
Arguments Throw {A} e.

(** ** The external collaborator: Firebase Auth and Firestore

    The repository reaches both through [src/config/firebase.js].  The
    collaborator is an in-memory stand-in driven by the world: [verifier]
    is the verdict of [auth.verifyIdToken] on each argument, the two stores
    hold accounts and documents, and [faults] schedules failures (transport
    faults, quota, validation errors of the real service, ...) for the next
    calls, an entry per call, so that every statement below holds whatever
    call the service chooses to reject. *)

Record DecodedIdToken := mkToken {
  tok_uid : jsstring;
  tok_email : JsVal;
  tok_email_verified : JsVal;
  tok_name : JsVal;
  tok_picture : JsVal }.

Record UserRecord := mkUserRecord {
  ur_uid : jsstring;
  ur_email : JsVal;
  ur_displayName : JsVal;
  ur_photoURL : JsVal;
  ur_emailVerified : JsVal }.

(** An account of the authentication service (a principal). *)
Record Principal := mkPrincipal {
  p_email : jsstring;
  p_password : jsstring;
  p_displayName : JsVal;
  p_photoURL : JsVal;
  p_emailVerified : JsVal }.

Record Collab := mkCollab {
  verifier : JsVal -> Result DecodedIdToken;
  principals : gmap jsstring Principal;
  documents : gmap (jsstring * jsstring) JsVal;
  faults : list (option JsError);
  uid_source : nat -> jsstring;
  uid_count : nat }.

Definition set_principals (ps : gmap jsstring Principal) (c : Collab) : Collab :=
  mkCollab (verifier c) ps (documents c) (faults c) (uid_source c) (uid_count c).

Definition set_documents (ds : gmap (jsstring * jsstring) JsVal) (c : Collab)
  : Collab :=
  mkCollab (verifier c) (principals c) ds (faults c) (uid_source c) (uid_count c).

Definition set_faults (fs : list (option JsError)) (c : Collab) : Collab :=
  mkCollab (verifier c) (principals c) (documents c) fs (uid_source c)
           (uid_count c).

Definition set_uid_count (n : nat) (c : Collab) : Collab :=
  mkCollab (verifier c) (principals c) (documents c) (faults c) (uid_source c) n.

(** The calls the service makes to the collaborator, with their arguments. *)
Inductive Call : Type :=
| CallVerifyIdToken (token : JsVal)
| CallCreateUser (props : JsObject)
| CallUpdateUser (uid : jsstring) (props : JsObject)
| CallDeleteUser (uid : jsstring)
| CallDocGet (coll id : jsstring)
| CallDocSet (coll id : jsstring) (data : JsVal)
| CallDocUpdate (coll id : jsstring) (updates : JsObject)
| CallDocDelete (coll id : jsstring).

(** ** The world of one request, and the monad of handlers *)

Record World := mkWorld {
  collab : Collab;
  runtime : Runtime;
  ticks : nat;
  calls : list Call;            (* collaborator calls, oldest first *)
  response : option Response }. (* what [res] has sent *)

Definition set_collab (c : Collab) (w : World) : World :=
  mkWorld c (runtime w) (ticks w) (calls w) (response w).

Definition log_call (k : Call) (w : World) : World :=
  mkWorld (collab w) (runtime w) (ticks w) (calls w ++ [k]) (response w).

Definition M (A : Type) : Type := World -> Result A * World.

Definition ret {A} (a : A) : M A := fun w => (Ok a, w).

Definition throw {A} (e : JsError) : M A := fun w => (Throw e, w).

Definition bind {A B} (m : M A) (k : A -> M B) : M B :=
  fun w =>
    match m w with
    | (Ok a, w') => k a w'
    | (Throw e, w') => (Throw e, w')
    end.

(** [try { m } catch (error) { h error }] *)
Definition try_catch {A} (m : M A) (h : JsError -> M A) : M A :=
  fun w =>
    match m w with
    | (Ok a, w') => (Ok a, w')
    | (Throw e, w') => h e w'
    end.

Notation "x <- m ;; k" := (bind m (fun x => k))
  (at level 20, m at level 99, k at level 200, only parsing).
Notation "m ;; k" := (bind m (fun _ => k))
  (at level 100, k at level 200, only parsing).

(** [res.status(st).json(b)]; Express throws when the response has already
    been sent. *)
Definition send (st : Z) (b : JsVal) : M unit :=
  fun w =>
    match response w with
    | Some _ => (Throw ERR_HTTP_HEADERS_SENT, w)
    | None =>
        (Ok tt, mkWorld (collab w) (runtime w) (ticks w) (calls w)
                        (Some (mkResponse st b)))
    end.

(** [v < n], as the runtime evaluates it. *)
Definition less_than (v : JsVal) (n : Z) : M bool :=
  fun w => (Ok (js_lt (runtime w) v n), w).

(** [new Date().toISOString()] *)
Definition new_Date_toISOString : M jsstring :=
  fun w =>
    (Ok (iso_time (runtime w) (ticks w)),
     mkWorld (collab w) (runtime w) (S (ticks w)) (calls w) (response w)).

(** An awaited call to the collaborator: it is logged, then it fails if a
    fault is scheduled for it, and otherwise does what the service does. *)
Definition collaborator {A} (k : Call) (sem : Collab -> Result A * Collab)
  : M A :=
  fun w =>
    let w1 := log_call k w in
    match faults (collab w1) with
    | Some e :: rest => (Throw e, set_collab (set_faults rest (collab w1)) w1)
    | None :: rest =>
        let r := sem (set_faults rest (collab w1)) in
        (fst r, set_collab (snd r) w1)
    | [] =>
        let r := sem (collab w1) in
        (fst r, set_collab (snd r) w1)
    end.

(** [auth.verifyIdToken(idToken)] *)
Definition auth_verifyIdToken (idToken : JsVal) : M DecodedIdToken :=
  collaborator (CallVerifyIdToken idToken) (fun c => (verifier c idToken, c)).

Definition email_taken (e : jsstring) (ps : gmap jsstring Principal) : bool :=
  existsb (fun kp => str_eqb (p_email (snd kp)) e) (map_to_list ps).

(** A display name or photo URL is a string when given. *)
Definition profile_string (v : JsVal) : bool :=
  match v with JUndefined | JStr _ => true | _ => false end.

(** [auth.createUser(props)] *)
Definition createUser_sem (props : JsObject) (c : Collab)
  : Result UserRecord * Collab :=
  match obj_get props (js "email"), obj_get props (js "password") with
  | JStr e, JStr p =>
      if negb (profile_string (obj_get props (js "displayName"))
               && profile_string (obj_get props (js "photoURL")))
      then (Throw (FirebaseAuthError "auth/invalid-argument"
                     "The profile fields must be strings"), c)
      else if (length p <? 6)%nat
      then (Throw (FirebaseAuthError "auth/invalid-password"
                     "The password must be a string with at least 6 characters"), c)
      else if email_taken e (principals c)
      then (Throw (FirebaseAuthError "auth/email-already-exists"
                     "The email address is already in use by another account"), c)
      else
        let u := uid_source c (uid_count c) in
        match principals c !! u with
        | Some _ =>
            (Throw (FirebaseAuthError "auth/uid-already-exists"
                      "The user with the provided uid already exists"), c)
        | None =>
            let p' := mkPrincipal e p (obj_get props (js "displayName"))
                        (obj_get props (js "photoURL"))
                        (obj_get props (js "emailVerified")) in
            (Ok (mkUserRecord u (JStr e) (p_displayName p') (p_photoURL p')
                   (p_emailVerified p')),
             set_uid_count (S (uid_count c))
               (set_principals (<[u := p']> (principals c)) c))
        end
  | JStr _, _ =>
      (Throw (FirebaseAuthError "auth/invalid-password"
                "The password must be a string with at least 6 characters"), c)
  | _, _ =>
      (Throw (FirebaseAuthError "auth/invalid-email"
                "The email address is improperly formatted"), c)
  end.

Definition auth_createUser (props : JsObject) : M UserRecord :=
  collaborator (CallCreateUser props) (createUser_sem props).

(** The stored value of a profile field after an update: a string is
    stored, [null] clears the field; [None] for a value the service
    refuses. *)
Definition updated_profile_field (old new : JsVal) (given : bool)
  : option JsVal :=
  if given then
    match new with
    | JStr s => Some (JStr s)
    | JNull => Some JUndefined
    | _ => None
    end
  else Some old.

(** [auth.updateUser(uid, props)] *)
Definition updateUser_sem (uid : jsstring) (props : JsObject) (c : Collab)
  : Result unit * Collab :=
  match principals c !! uid with
  | None =>
      (Throw (FirebaseAuthError "auth/user-not-found"
                "There is no user record corresponding to the provided identifier"), c)
  | Some p =>
      match updated_profile_field (p_displayName p)
              (obj_get props (js "displayName"))
              (has_key props (js "displayName")),
            updated_profile_field (p_photoURL p)
              (obj_get props (js "photoURL"))
              (has_key props (js "photoURL")) with
      | Some d, Some u =>
          (Ok tt,
           set_principals
             (<[uid := mkPrincipal (p_email p) (p_password p) d u
                         (p_emailVerified p)]> (principals c)) c)
      | _, _ =>
          (Throw (FirebaseAuthError "auth/invalid-argument"
                    "The profile fields must be strings"), c)
      end
  end.

Definition auth_updateUser (uid : jsstring) (props : JsObject) : M unit :=
  collaborator (CallUpdateUser uid props) (updateUser_sem uid props).

(** [auth.deleteUser(uid)] *)
Definition deleteUser_sem (uid : jsstring) (c : Collab) : Result unit * Collab :=
  match principals c !! uid with
  | None =>
      (Throw (FirebaseAuthError "auth/user-not-found"
                "There is no user record corresponding to the provided identifier"), c)
  | Some _ => (Ok tt, set_principals (delete uid (principals c)) c)
  end.

Definition auth_deleteUser (uid : jsstring) : M unit :=
  collaborator (CallDeleteUser uid) (deleteUser_sem uid).

(** *** Firestore documents *)

(** The value at a field path of a document. *)
Fixpoint get_path (p : list jsstring) (d : JsVal) : JsVal :=
  match p with
  | [] => d
  | k :: rest => get_path rest (field d k)
  end.

(** Writing a field path: the maps on the way are created when missing. *)
Fixpoint set_path (p : list jsstring) (v : JsVal) (d : JsVal) : JsVal :=
  match p with
  | [] => v
  | k :: rest =>
      let fs := match d with JObj fs => fs | _ => [] end in
      JObj (obj_set fs k (set_path rest v (obj_get fs k)))
  end.

(** A key of an update is a dot-separated field path. *)
Definition field_path (k : jsstring) : list jsstring := split k (js ".").

Definition apply_updates (updates : JsObject) (d : JsVal) : JsVal :=
  fold_left (fun d' kv => set_path (field_path (fst kv)) (snd kv) d') updates d.

(** [db.collection(coll).doc(id).get()]: the snapshot, [None] when the
    document does not exist. *)
Definition db_get (coll id : jsstring) : M (option JsVal) :=
  collaborator (CallDocGet coll id)
    (fun c => (Ok (documents c !! (coll, id)), c)).

(** [db.collection(coll).doc(id).set(data)] *)
Definition db_set (coll id : jsstring) (data : JsVal) : M unit :=
  collaborator (CallDocSet coll id data)
    (fun c => (Ok tt, set_documents (<[(coll, id) := data]> (documents c)) c)).

(** [db.collection(coll).doc(id).update(updates)]: fails when the document
    does not exist. *)
Definition db_update_sem (coll id : jsstring) (updates : JsObject) (c : Collab)
  : Result unit * Collab :=
  match documents c !! (coll, id) with
  | None => (Throw (FirestoreError 5 "NOT_FOUND: No document to update"), c)
  | Some d =>
      (Ok tt,
       set_documents (<[(coll, id) := apply_updates updates d]> (documents c)) c)
  end.

Definition db_update (coll id : jsstring) (updates : JsObject) : M unit :=
  collaborator (CallDocUpdate coll id updates) (db_update_sem coll id updates).

(** [db.collection(coll).doc(id).delete()] *)
Definition db_delete (coll id : jsstring) : M unit :=
  collaborator (CallDocDelete coll id)
    (fun c => (Ok tt, set_documents (delete (coll, id) (documents c)) c)).

(** ** Requests *)

(** [req.user], the identity the gate attaches. *)
Record Identity := mkIdentity {
  id_uid : jsstring;
  id_email : JsVal;
  id_emailVerified : JsVal;
  id_name : JsVal;
  id_picture : JsVal }.

Record Request := mkRequest {
  req_authorization : JsVal;   (* req.headers.authorization *)
  req_body : JsObject;         (* req.body, as parsed by express.json() *)
  req_param_word : jsstring;   (* req.params.word *)
  req_user : option Identity }.

Definition with_user (req : Request) (u : Identity) : Request :=
  mkRequest (req_authorization req) (req_body req) (req_param_word req) (Some u).

(** [req.user.uid] *)
Definition req_user_uid (req : Request) : M jsstring :=
  match req_user req with
  | Some u => ret (id_uid u)
  | None => throw (TypeError "Cannot read properties of undefined (reading 'uid')")
  end.

(** A call of an [async] function that nobody awaits: a failure inside
    stays in its promise. *)
Definition async_call (m : M unit) : M unit :=
  fun w =>
    match m w with
    | (Ok a, w') => (Ok a, w')
    | (Throw _, w') => (Ok tt, w')
    end.

(** [next()]: Express runs the next handler of the route, an [async]
    function here. *)
Definition express_next (next : Request -> M unit) (req : Request) : M unit :=
  async_call (next req).

(** ** src/middleware/auth.js *)

(** [authHeader.startsWith(p)] *)
Definition method_startsWith (v : JsVal) (p : jsstring) : M bool :=
  match v with
  | JStr s => ret (startsWith s p)
  | _ => throw (TypeError "authHeader.startsWith is not a function")
  end.

(** [s.split(sep)[i]]; [undefined] past the last piece. *)
Definition split_at (s sep : jsstring) (i : nat) : JsVal :=
  match nth_error (split s sep) i with
  | Some piece => JStr piece
  | None => JUndefined
  end.

(** [authHeader.split(sep)[i]] *)
Definition method_split_at (v : JsVal) (sep : jsstring) (i : nat) : M JsVal :=
  match v with
  | JStr s => ret (split_at s sep i)
  | _ => throw (TypeError "authHeader.split is not a function")
  end.

Definition identity_of (decodedToken : DecodedIdToken) : Identity :=
  mkIdentity (tok_uid decodedToken) (tok_email decodedToken)
    (tok_email_verified decodedToken) (tok_name decodedToken)
    (tok_picture decodedToken).

Definition error_body (error message : string) : JsVal :=
  JObj [(js "error", JStr (js error)); (js "message", JStr (js message))].

Definition verifyToken (req : Request) (next : Request -> M unit) : M unit :=
  try_catch
    (let authHeader := req_authorization req in
     missing <- (if negb (truthy authHeader) then ret true
                 else b <- method_startsWith authHeader (js "Bearer ") ;;
                      ret (negb b)) ;;
     if (missing : bool) then
       send 401 (error_body "No token provided"
                   "Authorization header with Bearer token is required")
     else
       idToken <- method_split_at authHeader (js "Bearer ") 1 ;;
       try_catch
         (decodedToken <- auth_verifyIdToken idToken ;;
          express_next next (with_user req (identity_of decodedToken)))
         (fun error =>
            send 401 (error_body "Invalid token"
                        "The provided token is invalid or expired")))
    (fun error =>
       send 500 (error_body "Authentication error"
                   "An error occurred during authentication")).

(** ** src/routes/auth.js *)

Definition users : jsstring := js "users".

(** The properties object handed to [auth.createUser]. *)
Definition new_user_props (email password displayName photoURL : JsVal)
  : JsObject :=
  [(js "email", email);
   (js "password", password);
   (js "displayName", js_or displayName JUndefined);
   (js "photoURL", js_or photoURL JUndefined);
   (js "emailVerified", JBool false)].

(** [userData], the profile document of a new account. *)
Definition user_document (userRecord : UserRecord)
    (displayName photoURL : JsVal) (createdAt lastLoginAt : jsstring) : JsVal :=
  JObj [(js "uid", JStr (ur_uid userRecord));
        (js "email", ur_email userRecord);
        (js "displayName", js_or displayName JNull);
        (js "photoURL", js_or photoURL JNull);
        (js "emailVerified", JBool false);
        (js "createdAt", JStr createdAt);
        (js "lastLoginAt", JStr lastLoginAt);
        (js "profile",
         JObj [(js "bio", JStr []); (js "preferences", JObj [])])].

(** The 201 body of a registration. *)
Definition registered_body (userRecord : UserRecord) : JsVal :=
  JObj [(js "message", JStr (js "User created successfully"));
        (js "user",
         JObj [(js "uid", JStr (ur_uid userRecord));
               (js "email", ur_email userRecord);
               (js "displayName", js_or (ur_displayName userRecord) JNull);
               (js "photoURL", js_or (ur_photoURL userRecord) JNull);
               (js "emailVerified", ur_emailVerified userRecord)])].

(** POST /auth/register *)
Definition post_register (req : Request) : M unit :=
  try_catch
    (let email := obj_get (req_body req) (js "email") in
     let password := obj_get (req_body req) (js "password") in
     let displayName := obj_get (req_body req) (js "displayName") in
     let photoURL := obj_get (req_body req) (js "photoURL") in
     if negb (truthy email) || negb (truthy password) then
       send 400 (error_body "Missing required fields"
                   "Email and password are required")
     else
       tooShort <- less_than (js_length password) 6 ;;
       if (tooShort : bool) then
         send 400 (error_body "Password too short"
                     "Password must be at least 6 characters long")
       else
         try_catch
           (userRecord <- auth_createUser
                            (new_user_props email password displayName
                               photoURL) ;;
            createdAt <- new_Date_toISOString ;;
            lastLoginAt <- new_Date_toISOString ;;
            let userData :=
              user_document userRecord displayName photoURL createdAt
                lastLoginAt in
            db_set users (ur_uid userRecord) userData ;;
            send 201 (registered_body userRecord))
           (fun error =>
              if strict_eq_str (err_code error) (js "auth/email-already-exists")
              then send 409 (error_body "User already exists"
                               "An account with this email already exists")
              else throw error))
    (fun error =>
       send 500 (error_body "Registration failed"
                   "An error occurred during registration")).

(** GET /auth/user, behind the gate *)
Definition get_user (req : Request) : M unit :=
  try_catch
    (uid <- req_user_uid req ;;
     userDoc <- db_get users uid ;;
     match userDoc with
     | None =>
         send 404 (error_body "User not found"
                     "User profile not found in database")
     | Some userData => send 200 (JObj [(js "user", userData)])
     end)
    (fun error =>
       send 500 (error_body "Failed to get user"
                   "An error occurred while fetching user data")).

(** [if (v !== undefined) o[k] = v] *)
Definition assign_if_defined (o : JsObject) (k : jsstring) (v : JsVal)
  : JsObject :=
  if is_defined v then obj_set o k v else o.

(** PUT /auth/user, behind the gate *)
Definition put_user (req : Request) : M unit :=
  try_catch
    (let displayName := obj_get (req_body req) (js "displayName") in
     let photoURL := obj_get (req_body req) (js "photoURL") in
     let bio := obj_get (req_body req) (js "bio") in
     let preferences := obj_get (req_body req) (js "preferences") in
     now <- new_Date_toISOString ;;
     let updates := [(js "lastUpdatedAt", JStr now)] in
     let authUpdates := [] in
     let authUpdates := assign_if_defined authUpdates (js "displayName") displayName in
     let updates := assign_if_defined updates (js "displayName") displayName in
     let authUpdates := assign_if_defined authUpdates (js "photoURL") photoURL in
     let updates := assign_if_defined updates (js "photoURL") photoURL in
     (if (0 <? length (obj_keys authUpdates))%nat
      then uid <- req_user_uid req ;; auth_updateUser uid authUpdates
      else ret tt) ;;
     let updates := assign_if_defined updates (js "profile.bio") bio in
     let updates := assign_if_defined updates (js "profile.preferences") preferences in
     uid <- req_user_uid req ;;
     db_update users uid updates ;;
     uid' <- req_user_uid req ;;
     userDoc <- db_get users uid' ;;
     let userData := match userDoc with Some d => d | None => JUndefined end in
     send 200 (JObj [(js "message", JStr (js "Profile updated successfully"));
                     (js "user", userData)]))
    (fun error =>
       send 500 (error_body "Failed to update user"
                   "An error occurred while updating user data")).

(** DELETE /auth/user, behind the gate *)
Definition delete_user (req : Request) : M unit :=
  try_catch
    (uid <- req_user_uid req ;;
     db_delete users uid ;;
     uid' <- req_user_uid req ;;
     auth_deleteUser uid' ;;
     send 200 (JObj [(js "message", JStr (js "Account deleted successfully"))]))
    (fun error =>
       send 500 (error_body "Failed to delete user"
                   "An error occurred while deleting user account")).

(** POST /auth/verify-token *)
Definition post_verify_token (req : Request) : M unit :=
  try_catch
    (let idToken := obj_get (req_body req) (js "idToken") in
     if negb (truthy idToken) then
       send 400 (error_body "Missing token" "ID token is required")
     else
       try_catch
         (decodedToken <- auth_verifyIdToken idToken ;;
          send 200
            (JObj [(js "valid", JBool true);
                   (js "user",
                    JObj [(js "uid", JStr (tok_uid decodedToken));
                          (js "email", tok_email decodedToken);
                          (js "emailVerified",
                           tok_email_verified decodedToken)])]))
         (fun error =>
            send 401
              (JObj [(js "valid", JBool false);
                     (js "error", JStr (js "Invalid token"));
                     (js "message",
                      JStr (js "The provided token is invalid or expired"))])))
    (fun error =>
       send 500 (error_body "Verification failed"
                   "An error occurred during token verification")).

(** ** src/index.js *)

(** GET / *)
Definition get_root (req : Request) : M unit :=
  send 200 (JObj [(js "message", JStr (js "Welcome to the API"))]).

(** GET /hello *)
Definition get_hello (req : Request) : M unit :=
  send 200 (JObj [(js "message", JStr (js "Hello from Vercel"))]).

(** [word.split('').reverse().join('')] on whatever [word] is: only a
    string has a [split] method. *)
Definition split_reverse_join (word : JsVal) : M jsstring :=
  match word with
  | JStr w => ret (reverse_word w)
  | _ => throw (TypeError "word.split is not a function")
  end.

(** POST /palindrome *)
Definition post_palindrome (req : Request) : M unit :=
  let word := obj_get (req_body req) (js "word") in
  if negb (truthy word) then
    send 400 (JObj [(js "error", JStr (js "Please provide a word"))])
  else
    palindrome <- split_reverse_join word ;;
    send 200 (JObj [(js "original", word); (js "palindrome", JStr palindrome)]).

(** GET /palindrome/:word *)
Definition get_palindrome_word (req : Request) : M unit :=
  let word := JStr (req_param_word req) in
  palindrome <- split_reverse_join word ;;
  send 200 (JObj [(js "original", word); (js "palindrome", JStr palindrome)]).

(** The error-handling middleware, last in the chain. *)
Definition error_handler (err : JsError) : M unit :=
  send 500 (JObj [(js "error", JStr (js "Something went wrong!"))]).

(** Express around a handler: what a synchronous handler throws goes to
    the error-handling middleware; an [async] handler returns a promise,
    and its rejection is not seen. *)
Definition sync_route (h : M unit) : M unit := try_catch h error_handler.

Definition async_route (h : M unit) : M unit :=
  try_catch (async_call h) error_handler.

Inductive Endpoint : Type :=
| GET_root
| GET_hello
| POST_palindrome
| GET_palindrome_word
| POST_auth_register
| GET_auth_user
| PUT_auth_user
| DELETE_auth_user
| POST_auth_verify_token.

(** The routes as [app] (src/index.js) and [router] (src/routes/auth.js)
    declare them, the router taken as mounted under /auth; the three
    routes on /auth/user have the gate in front. *)
Definition route (ep : Endpoint) (req : Request) : M unit :=
  match ep with
  | GET_root => sync_route (get_root req)
  | GET_hello => sync_route (get_hello req)
  | POST_palindrome => sync_route (post_palindrome req)
  | GET_palindrome_word => sync_route (get_palindrome_word req)
  | POST_auth_register => async_route (post_register req)
  | GET_auth_user => async_route (verifyToken req get_user)
  | PUT_auth_user => async_route (verifyToken req put_user)
  | DELETE_auth_user => async_route (verifyToken req delete_user)
  | POST_auth_verify_token => async_route (post_verify_token req)
  end.

(** The world in which a request arrives: nothing sent, no call made. *)
Definition incoming (c : Collab) (rt : Runtime) : World :=
  mkWorld c rt 0 [] None.

(** An inbound request as Express hands it over: no identity attached. *)
Definition inbound (authorization : JsVal) (body : JsObject) (word : jsstring)
  : Request :=
  mkRequest authorization body word None.

(** The world after the request has been handled. *)
Definition serve (ep : Endpoint) (req : Request) (c : Collab)
    (rt : Runtime) : World :=
  snd (route ep req (incoming c rt)).

(** The world after a computation has run on an incoming request. *)
Definition run (m : M unit) (c : Collab) (rt : Runtime) : World :=
  snd (m (incoming c rt)).

(** ** Observations used in the statements *)

(** What a computation returns, or throws, in a given world. *)
Definition outcome {A} (m : M A) (w : World) : Result A := fst (m w).

(** The success body of both palindrome endpoints. *)
Definition palindrome_body (original palindrome : jsstring) : JsVal :=
  JObj [(js "original", JStr original); (js "palindrome", JStr palindrome)].

(** *** A small collaborator for the examples *)

Definition demo_token : DecodedIdToken :=
  mkToken (js "u1") (JStr (js "ann@example.com")) (JBool true)
          JUndefined JUndefined.

(** The token [good] belongs to account [u1]; nothing else verifies. *)
Definition demo_verifier (t : JsVal) : Result DecodedIdToken :=
  if strict_eq_str t (js "good") then Ok demo_token
  else Throw (FirebaseAuthError "auth/argument-error"
                "Decoding Firebase ID token failed").

Definition demo_uid (n : nat) : jsstring := js "uid" ++ [N.of_nat (48 + n)].

Definition demo_clock (n : nat) : jsstring :=
  js "2025-01-01T00:00:0" ++ [N.of_nat (48 + n)] ++ js ".000Z".

(** A runtime for the examples; none of them compares a converted
    operand. *)
Definition demo_runtime : Runtime := mkRuntime demo_clock (fun _ _ => false).

(** No account, no document, no fault scheduled. *)
Definition demo_collab : Collab :=
  mkCollab demo_verifier ∅ ∅ [] demo_uid 0.

(** 😀a: a surrogate pair followed by a letter. *)
Definition grinning_a : jsstring := [55357%N; 56832%N; 97%N].

(** The 401 body of POST /auth/verify-token. *)
Definition invalid_token_verdict : JsVal :=
  JObj [(js "valid", JBool false);
        (js "error", JStr (js "Invalid token"));
        (js "message", JStr (js "The provided token is invalid or expired"))].

(** The 200 body of POST /auth/verify-token. *)
Definition valid_token_verdict (d : DecodedIdToken) : JsVal :=
  JObj [(js "valid", JBool true);
        (js "user",
         JObj [(js "uid", JStr (tok_uid d));
               (js "email", tok_email d);
               (js "emailVerified", tok_email_verified d)])].

(** A failure that is no verdict on the token: the network gave up while
    the service was fetching its public keys. *)
Definition transport_fault : JsError :=
  mkError (js "FetchError") (JStr (js "ECONNRESET"))
          (js "request to https://www.googleapis.com failed, socket hang up").

(** *** The answers of the gate *)

Definition no_token_response : Response :=
  mkResponse 401 (error_body "No token provided"
                    "Authorization header with Bearer token is required").

Definition invalid_token_response : Response :=
  mkResponse 401 (error_body "Invalid token"
                    "The provided token is invalid or expired").

Definition authentication_error_response : Response :=
  mkResponse 500 (error_body "Authentication error"
                    "An error occurred during authentication").

(** The header is absent (or empty), or is a string without the scheme
    marker in front. *)
Definition no_bearer (authorization : JsVal) : Prop :=
  truthy authorization = false
  \/ exists s, authorization = JStr s /\ startsWith s (js "Bearer ") = false.

(** The identity the gate resolves for a request, if any: the header
    carries the scheme marker and the verification call succeeds. *)
Definition gate_admits (req : Request) (c : Collab) (rt : Runtime)
  : option Identity :=
  match req_authorization req with
  | JStr s =>
      if startsWith s (js "Bearer ") then
        match outcome (auth_verifyIdToken (split_at s (js "Bearer ") 1))
                      (incoming c rt) with
        | Ok d => Some (identity_of d)
        | Throw _ => None
        end
      else None
  | _ => None
  end.

(** The handler behind the gate, for the routes that have one. *)
Definition gated_handler (ep : Endpoint) : option (Request -> M unit) :=
  match ep with
  | GET_auth_user => Some get_user
  | PUT_auth_user => Some put_user
  | DELETE_auth_user => Some delete_user
  | _ => None
  end.

(** A call made for a route handler (anything but the verification of the
    credential). *)
Definition handler_call (k : Call) : bool :=
  match k with CallVerifyIdToken _ => false | _ => true end.

(** The demo collaborator with the network down for its next call. *)
Definition faulty_collab : Collab := set_faults [Some transport_fault] demo_collab.

(** *** Registration *)

(** The fields of a registration body. *)
Definition body_email (req : Request) : JsVal := obj_get (req_body req) (js "email").
Definition body_password (req : Request) : JsVal :=
  obj_get (req_body req) (js "password").
Definition body_displayName (req : Request) : JsVal :=
  obj_get (req_body req) (js "displayName").
Definition body_photoURL (req : Request) : JsVal :=
  obj_get (req_body req) (js "photoURL").

(** The call that creates the principal of a registration. *)
Definition registration_props (req : Request) : JsObject :=
  new_user_props (body_email req) (body_password req) (body_displayName req)
                 (body_photoURL req).

(** The world of a registration once the principal exists and the two
    timestamps have been read, in which the profile document is written. *)
Definition after_creation (req : Request) (c : Collab) (rt : Runtime)
  : World :=
  snd (new_Date_toISOString
         (snd (new_Date_toISOString
                 (snd (auth_createUser (registration_props req)
                         (incoming c rt)))))).

Definition missing_fields_response : Response :=
  mkResponse 400 (error_body "Missing required fields"
                    "Email and password are required").

Definition password_too_short_response : Response :=
  mkResponse 400 (error_body "Password too short"
                    "Password must be at least 6 characters long").

Definition user_exists_response : Response :=
  mkResponse 409 (error_body "User already exists"
                    "An account with this email already exists").

Definition registration_failed_response : Response :=
  mkResponse 500 (error_body "Registration failed"
                    "An error occurred during registration").

(** A supplied profile value reaches the principal and the document as it
    is when it is truthy; otherwise the principal gets none and the
    document gets [null]. *)
Definition passes_through (supplied in_principal in_document : JsVal) : Prop :=
  (truthy supplied = true ->
     in_principal = supplied /\ in_document = supplied)
  /\ (truthy supplied = false ->
      in_principal = JUndefined /\ in_document = JNull).

(** A registration with an empty display name. *)
Definition empty_name_request : Request :=
  inbound JUndefined
    [(js "email", JStr (js "ann@example.com"));
     (js "password", JStr (js "secret"));
     (js "displayName", JStr [])] [].

(** A registration with a display name. *)
Definition named_request : Request :=
  inbound JUndefined
    [(js "email", JStr (js "ann@example.com"));
     (js "password", JStr (js "secret"));
     (js "displayName", JStr (js "Ann"))] [].

(** The demo collaborator once [named_request] has been served. *)
Definition registered_collab : Collab :=
  collab (serve POST_auth_register named_request demo_collab demo_runtime).

Definition email_exists_error : JsError :=
  FirebaseAuthError "auth/email-already-exists"
    "The email address is already in use by another account".

(** *** Profile updates *)

Definition body_bio (req : Request) : JsVal := obj_get (req_body req) (js "bio").
Definition body_preferences (req : Request) : JsVal :=
  obj_get (req_body req) (js "preferences").

(** [authUpdates], as PUT /auth/user builds it. *)
Definition auth_updates_of (req : Request) : JsObject :=
  assign_if_defined
    (assign_if_defined [] (js "displayName") (body_displayName req))
    (js "photoURL") (body_photoURL req).

(** [updates], as PUT /auth/user has built it when it writes the document. *)
Definition updates_of (req : Request) (now : jsstring) : JsObject :=
  assign_if_defined
    (assign_if_defined
       (assign_if_defined
          (assign_if_defined [(js "lastUpdatedAt", JStr now)]
             (js "displayName") (body_displayName req))
          (js "photoURL") (body_photoURL req))
       (js "profile.bio") (body_bio req))
    (js "profile.preferences") (body_preferences req).

(** The field paths a profile update may write: the timestamp, and the
    path of each of the four fields that the body supplies. *)
Definition written_paths (req : Request) : list (list jsstring) :=
  [[js "lastUpdatedAt"]]
  ++ (if is_defined (body_displayName req) then [[js "displayName"]] else [])
  ++ (if is_defined (body_photoURL req) then [[js "photoURL"]] else [])
  ++ (if is_defined (body_bio req) then [[js "profile"; js "bio"]] else [])
  ++ (if is_defined (body_preferences req)
      then [[js "profile"; js "preferences"]] else []).

(** Two field paths overlap when one leads to the other (one is a prefix
    of the other): writing either may change what is read at the other. *)
Fixpoint overlapping (p q : list jsstring) : bool :=
  match p, q with
  | [], _ | _, [] => true
  | a :: p', b :: q' => str_eqb a b && overlapping p' q'
  end.

(** A field path that no write of the update can reach. *)
Definition untouched (req : Request) (p : list jsstring) : Prop :=
  Forall (fun q => overlapping p q = false) (written_paths req).

(** A call that changes an account of the authentication service. *)
Definition principal_call (k : Call) : bool :=
  match k with
  | CallCreateUser _ | CallUpdateUser _ _ | CallDeleteUser _ => true
  | _ => false
  end.

Definition update_failed_response : Response :=
  mkResponse 500 (error_body "Failed to update user"
                    "An error occurred while updating user data").

(** The 200 body of a profile update. *)
Definition updated_body (userData : JsVal) : JsVal :=
  JObj [(js "message", JStr (js "Profile updated successfully"));
        (js "user", userData)].

Definition set_response (r : Response) (w : World) : World :=
  mkWorld (collab w) (runtime w) (ticks w) (calls w) (Some r).

(** A request by the demo account, as the gate passes it on. *)
Definition demo_identity : Identity := identity_of demo_token.

Definition bio_request : Request :=
  with_user (inbound (JStr (js "Bearer good")) [(js "bio", JStr (js "x"))] [])
            demo_identity.

Definition empty_update_request : Request :=
  with_user (inbound (JStr (js "Bearer good")) [] []) demo_identity.

(** The profile document of the demo account. *)
Definition demo_profile : JsVal :=
  JObj [(js "uid", JStr (js "u1"));
        (js "displayName", JStr (js "Ann"));
        (js "photoURL", JNull);
        (js "profile", JObj [(js "bio", JStr []); (js "preferences", JObj [])])].

(** A world in which the demo account has its profile document and the
    gate has just verified its token. *)
Definition demo_world : World :=
  mkWorld (set_documents (<[(users, js "u1") := demo_profile]> ∅) demo_collab)
          demo_runtime 0 [CallVerifyIdToken (JStr (js "good"))] None.

(** *** Failure envelopes *)

(** The routes of [src/routes/auth.js]. *)
Definition account_route (ep : Endpoint) : bool :=
  match ep with
  | POST_auth_register | GET_auth_user | PUT_auth_user | DELETE_auth_user
  | POST_auth_verify_token => true
  | _ => false
  end.

Definition is_failure (r : Response) : Prop := 400 <= status r.

(** The body has a string under the key. *)
Definition has_string (b : JsVal) (k : string) : Prop :=
  exists s, field b (js k) = JStr s.

(** A failure body with both an [error] code and a [message]. *)
Definition full_envelope (r : Response) : Prop :=
  has_string (body r) "error" /\ has_string (body r) "message"
  /\ In (status r) [400; 401; 404; 409; 500].

(** The invariant of the account routes: whatever has been sent is a
    success or a full failure envelope. *)
Definition well_answered (w : World) : Prop :=
  forall r, response w = Some r -> status r < 400 \/ full_envelope r.

(** A computation that keeps an invariant of the world. *)
Definition preserves {A} (I : World -> Prop) (m : M A) : Prop :=
  forall w, I w -> I (snd (m w)).

Definition provide_a_word_body : JsVal :=
  JObj [(js "error", JStr (js "Please provide a word"))].

Definition something_went_wrong_body : JsVal :=
  JObj [(js "error", JStr (js "Something went wrong!"))].

(** A registration with a password of five code units. *)
Definition short_password_request : Request :=
  inbound JUndefined
    [(js "email", JStr (js "ann@example.com"));
     (js "password", JStr (js "12345"))] [].

(** A verification request for the token [good]. *)
Definition good_token_request : Request :=
  inbound JUndefined [(js "idToken", JStr (js "good"))] [].

(** The demo collaborator holding the profile document of the demo
    account. *)
Definition profiled_collab : Collab :=
  set_documents (<[(users, js "u1") := demo_profile]> ∅) demo_collab.

(** ** src/middleware/auth.js, the optional gate *)

Definition optionalAuth (req : Request) (next : Request -> M unit) : M unit :=
  try_catch
    (let authHeader := req_authorization req in
     bearer <- (if truthy authHeader
                then method_startsWith authHeader (js "Bearer ")
                else ret false) ;;
     req' <- (if (bearer : bool) then
                idToken <- method_split_at authHeader (js "Bearer ") 1 ;;
                try_catch
                  (decodedToken <- auth_verifyIdToken idToken ;;
                   ret (with_user req (identity_of decodedToken)))
                  (fun error => ret req)
              else ret req) ;;
     express_next next req')
    (fun error => express_next next req).

(** ** src/config/firebase.js *)

(** [privateKey.replace(/\\n/g, '\n')]: every backslash followed by [n]
    becomes a line feed. *)
Fixpoint unescape_newlines (s : jsstring) : jsstring :=
  match s with
  | [] => []
  | c :: s' =>
      match s' with
      | d :: rest =>
          if (c =? 92)%N && (d =? 110)%N
          then 10%N :: unescape_newlines rest
          else c :: unescape_newlines s'
      | [] => [c]
      end
  end.

(** [process.env]: the variables that are set, with their values. *)
Abbreviation Env := (gmap jsstring jsstring).

(** [process.env.NAME] *)
Definition getenv (env : Env) (name : string) : JsVal :=
  match env !! js name with
  | Some v => JStr v
  | None => JUndefined
  end.

(** The calls of the start-up into firebase-admin and the platform:
    [JSON.parse(Buffer.from(text, 'base64').toString('utf-8'))],
    [admin.credential.cert] and [admin.initializeApp]; each may throw. *)
Record AdminSdk := mkAdminSdk {
  parse_base64_json : JsVal -> Result JsVal;
  credential_cert : JsVal -> Result JsVal;
  initializeApp : JsObject -> Result JsVal }.

(** How the module leaves the process: with [firebaseApp] set, or through
    [process.exit(code)]. *)
Inductive Startup : Type :=
| Initialized (firebaseApp : JsVal)
| Exited (code : Z).

Definition result_bind {A B} (r : Result A) (k : A -> Result B) : Result B :=
  match r with
  | Ok a => k a
  | Throw e => Throw e
  end.

(** [admin.initializeApp({credential: admin.credential.cert(serviceAccount),
    databaseURL: process.env.FIREBASE_DATABASE_URL})] *)
Definition initialize_with (sdk : AdminSdk) (env : Env) (serviceAccount : JsVal)
  : Result Startup :=
  result_bind (credential_cert sdk serviceAccount) (fun credential =>
  result_bind (initializeApp sdk
                 [(js "credential", credential);
                  (js "databaseURL", getenv env "FIREBASE_DATABASE_URL")])
              (fun app => Ok (Initialized app))).

(** [string.replace] on an environment variable (always a string when
    set). *)
Definition unescaped (v : JsVal) : JsVal :=
  match v with
  | JStr s => JStr (unescape_newlines s)
  | _ => v
  end.

(** The initialisation of the Firebase Admin SDK. *)
Definition firebase_startup (sdk : AdminSdk) (env : Env) : Startup :=
  let attempt :=
    if truthy (getenv env "FIREBASE_SERVICE_ACCOUNT_BASE64") then
      result_bind
        (parse_base64_json sdk (getenv env "FIREBASE_SERVICE_ACCOUNT_BASE64"))
        (fun serviceAccount => initialize_with sdk env serviceAccount)
    else if truthy (getenv env "FIREBASE_PROJECT_ID")
            && truthy (getenv env "FIREBASE_PRIVATE_KEY")
            && truthy (getenv env "FIREBASE_CLIENT_EMAIL") then
      let serviceAccount :=
        JObj [(js "projectId", getenv env "FIREBASE_PROJECT_ID");
              (js "privateKey",
               unescaped (getenv env "FIREBASE_PRIVATE_KEY"));
              (js "clientEmail", getenv env "FIREBASE_CLIENT_EMAIL")] in
      initialize_with sdk env serviceAccount
    else Ok (Exited 1) in
  match attempt with
  | Ok s => s
  | Throw error => Exited 1
  end.

(** ** More observations *)

(** The string has an occurrence of the (non-empty) separator. *)
Fixpoint contains (s sep : jsstring) : bool :=
  match s with
  | [] => startsWith [] sep
  | _ :: s' => startsWith s sep || contains s' sep
  end.

(** The scheme marker of the credential header. *)
Definition Bearer : jsstring := js "Bearer ".

(** The computation does not touch the response. *)
Definition quiet {A} (m : M A) : Prop :=
  forall w, response (snd (m w)) = response w.

(** Started before anything is sent, the computation either returns with
    a response sent, or throws with none sent. *)
Definition clean (m : M unit) : Prop :=
  forall w, response w = None ->
    match m w with
    | (Ok _, w') => response w' <> None
    | (Throw _, w') => response w' = None
    end.

(** Started before anything is sent, the computation returns, with a
    response sent. *)
Definition answers (m : M unit) : Prop :=
  forall w, response w = None ->
    exists w', m w = (Ok tt, w') /\ response w' <> None.

Definition get_failed_response : Response :=
  mkResponse 500 (error_body "Failed to get user"
                    "An error occurred while fetching user data").

Definition not_found_response : Response :=
  mkResponse 404 (error_body "User not found"
                    "User profile not found in database").

Definition delete_failed_response : Response :=
  mkResponse 500 (error_body "Failed to delete user"
                    "An error occurred while deleting user account").

Definition deleted_response : Response :=
  mkResponse 200 (JObj [(js "message", JStr (js "Account deleted successfully"))]).

(** An environment with the three variables of the second configuration,
    the key with its line feeds escaped. *)
Definition demo_env : Env :=
  <[js "FIREBASE_PROJECT_ID" := js "demo"]>
    (<[js "FIREBASE_PRIVATE_KEY" := js "-----BEGIN-----\nabc\n-----END-----\n"]>
       (<[js "FIREBASE_CLIENT_EMAIL" := js "sdk@demo.iam"]> ∅)).

(** An SDK that accepts everything and names the app after its options. *)
Definition demo_sdk : AdminSdk :=
  mkAdminSdk (fun v => Ok v) (fun v => Ok v) (fun o => Ok (JObj o)).

(** The demo account itself. *)
Definition demo_principal : Principal :=
  mkPrincipal (js "ann@example.com") (js "secret") (JStr (js "Ann"))
              JUndefined (JBool true).

(** A world in which the demo account exists with its profile document
    and the gate has just verified its token. *)
Definition account_world : World :=
  mkWorld (set_principals (<[js "u1" := demo_principal]> ∅) profiled_collab)
          demo_runtime 0 [CallVerifyIdToken (JStr (js "good"))] None.

(** The calls of a profile update that goes all the way, in their order:
    the account update, made only when the body asks for one, then the
    update of the document and its read. *)
Definition update_calls (req : Request) (u : Identity) (now : jsstring)
  : list Call :=
  (if (0 <? length (obj_keys (auth_updates_of req)))%nat
   then [CallUpdateUser (id_uid u) (auth_updates_of req)] else [])
  ++ [CallDocUpdate users (id_uid u) (updates_of req now);
      CallDocGet users (id_uid u)].

(** A profile update that renames the demo account. *)
Definition rename_request : Request :=
  with_user (inbound (JStr (js "Bearer good"))
               [(js "displayName", JStr (js "Anna"))] [])
            demo_identity.

(** A world in which the demo account exists, without a profile
    document. *)
Definition orphan_world : World :=
  mkWorld (set_principals (<[js "u1" := demo_principal]> ∅) demo_collab)
          demo_runtime 0 [CallVerifyIdToken (JStr (js "good"))] None.

(** A backslash followed by [n]. *)
Definition escaped_newline : jsstring := [92%N; 110%N].

(** The options [initializeApp] is called with. *)
Definition app_options (env : Env) (credential : JsVal) : JsObject :=
  [(js "credential", credential);
   (js "databaseURL", getenv env "FIREBASE_DATABASE_URL")].

(** * Properties *)

(** ** Strings *)

Lemma str_eqb_refl (a : jsstring) : str_eqb a a = true.
Proof.
  induction a as [|x a IH]; simpl; [reflexivity|].
  rewrite N.eqb_refl. exact IH.
Qed.

Lemma str_eqb_eq (a b : jsstring) : str_eqb a b = true <-> a = b.
Proof.
  split.
  - revert b. induction a as [|x a IH]; intros [|y b] H; simpl in H;
      try discriminate; [reflexivity|].
    apply andb_true_iff in H as [Hx Hab].
    apply N.eqb_eq in Hx. apply IH in Hab. congruence.
  - intros ->. apply str_eqb_refl.
Qed.

Lemma str_eqb_neq (a b : jsstring) : str_eqb a b = false <-> a <> b.
Proof.
  rewrite <- str_eqb_eq. destruct (str_eqb a b); split; congruence.
Qed.

Lemma concat_singletons (w : jsstring) :
  concat (List.map (fun c => [c]) w) = w.
Proof. induction w as [|c w IH]; simpl; [reflexivity | now rewrite IH]. Qed.

(** The reversal puts the code units in the opposite order. *)
Lemma reverse_word_rev (w : jsstring) : reverse_word w = rev w.
Proof.
  unfold reverse_word, join_empty, split.
  rewrite <- List.map_rev. apply concat_singletons.
Qed.

Lemma reverse_word_nonempty (w : jsstring) : w <> [] -> reverse_word w <> [].
Proof.
  rewrite reverse_word_rev. intros H E. apply H.
  rewrite <- (rev_involutive w), E. reflexivity.
Qed.

Lemma truthy_nonempty (w : jsstring) : w <> [] -> truthy (JStr w) = true.
Proof. destruct w; [congruence | reflexivity]. Qed.

(** ** The palindrome endpoints *)

Lemma post_palindrome_string req c rt (w : jsstring) :
  obj_get (req_body req) (js "word") = JStr w -> w <> [] ->
  response (serve POST_palindrome req c rt)
  = Some (mkResponse 200 (palindrome_body w (reverse_word w))).
Proof.
  intros Hw Hne. unfold serve, route, sync_route, try_catch, post_palindrome.
  rewrite Hw, (truthy_nonempty w Hne). reflexivity.
Qed.

Lemma get_palindrome_string req c rt :
  response (serve GET_palindrome_word req c rt)
  = Some (mkResponse 200
            (palindrome_body (req_param_word req)
               (reverse_word (req_param_word req)))).
Proof. reflexivity. Qed.

(** C8. For every non-empty string [w], reversing twice gives [w] back,
    whatever its code units are (surrogate pairs included): as a function
    on strings, and through either endpoint, where the reversed word is
    sent back in as the word. *)
Theorem double_reversal_round_trip (w : jsstring) :
  w <> [] ->
  reverse_word (reverse_word w) = w
  /\ (forall req c rt,
        obj_get (req_body req) (js "word") = JStr (reverse_word w) ->
        response (serve POST_palindrome req c rt)
        = Some (mkResponse 200 (palindrome_body (reverse_word w) w)))
  /\ (forall req c rt,
        req_param_word req = reverse_word w ->
        response (serve GET_palindrome_word req c rt)
        = Some (mkResponse 200 (palindrome_body (reverse_word w) w))).
Proof.
  intros Hne.
  assert (Hrr : reverse_word (reverse_word w) = w).
  { rewrite !reverse_word_rev. apply rev_involutive. }
  split; [exact Hrr|]. split.
  - intros req c rt Hw.
    rewrite (post_palindrome_string req c rt (reverse_word w) Hw
               (reverse_word_nonempty w Hne)).
    now rewrite Hrr.
  - intros req c rt Hw. rewrite get_palindrome_string, Hw, Hrr. reflexivity.
Qed.

Lemma double_reversal_round_trip_witness :
  grinning_a <> []
  /\ reverse_word (reverse_word grinning_a) = grinning_a.
Proof.
  split; [discriminate|].
  apply (double_reversal_round_trip grinning_a). discriminate.
Defined.

(** C9. For every non-empty word [w], POST /palindrome with [{word: w}]
    and GET /palindrome/w answer 200 with the same body
    [{original: w, palindrome: r}], [r] being the code units of [w] in the
    opposite order; GET /palindrome/hello answers
    [{original: "hello", palindrome: "olleh"}]. *)
Theorem palindrome_body_and_path_agree (w : jsstring) :
  w <> [] ->
  (forall req req' c rt c' rt',
     obj_get (req_body req) (js "word") = JStr w ->
     req_param_word req' = w ->
     response (serve POST_palindrome req c rt)
     = Some (mkResponse 200 (palindrome_body w (rev w)))
     /\ response (serve GET_palindrome_word req' c' rt')
        = Some (mkResponse 200 (palindrome_body w (rev w))))
  /\ (forall req c rt,
        req_param_word req = js "hello" ->
        response (serve GET_palindrome_word req c rt)
        = Some (mkResponse 200 (palindrome_body (js "hello") (js "olleh")))).
Proof.
  intros Hne. split.
  - intros req req' c rt c' rt' Hw Hp. split.
    + rewrite (post_palindrome_string req c rt w Hw Hne).
      now rewrite reverse_word_rev.
    + rewrite get_palindrome_string, Hp. now rewrite reverse_word_rev.
  - intros req c rt Hp. rewrite get_palindrome_string, Hp. reflexivity.
Qed.

Lemma palindrome_body_and_path_agree_witness :
  js "hello" <> []
  /\ response (serve POST_palindrome
                 (inbound JUndefined [(js "word", JStr (js "hello"))] [])
                 demo_collab demo_runtime)
     = Some (mkResponse 200 (palindrome_body (js "hello") (js "olleh")))
  /\ response (serve GET_palindrome_word
                 (inbound JUndefined [] (js "hello")) demo_collab demo_runtime)
     = Some (mkResponse 200 (palindrome_body (js "hello") (js "olleh"))).
Proof.
  split; [discriminate|].
  apply (proj1 (palindrome_body_and_path_agree (js "hello") ltac:(discriminate))
           (inbound JUndefined [(js "word", JStr (js "hello"))] [])
           (inbound JUndefined [] (js "hello"))
           demo_collab demo_runtime demo_collab demo_runtime);
    reflexivity.
Defined.

(** ** Running handlers *)

Arguments js : simpl never.

(** The three ways a collaborator call can go, by the fault schedule. *)
Ltac by_fault c :=
  let e := fresh "fault" in
  let rest := fresh "rest" in
  destruct (faults c) as [|[e|] rest] eqn:?.

(** Unfolds a route down to the primitives of the monad. *)
Ltac unfold_route :=
  unfold serve, run, outcome, route, async_route, sync_route, express_next,
    async_call, try_catch, bind, ret, throw in *.

(** ** POST /auth/verify-token *)

(** C6. POST /auth/verify-token: without a (truthy) [idToken] the answer
    is 400 and no call is made; when the verification call fails, for
    whatever reason, the answer is 401 with [{valid: false, error,
    message}]; when it succeeds the answer is 200 with [{valid: true}]
    and the [uid], [email] and [emailVerified] of the decoded token; no
    failure of the verification call gives a 500. *)
Theorem verify_token_outcomes (req : Request) (c : Collab)
    (rt : Runtime) :
  (truthy (obj_get (req_body req) (js "idToken")) = false ->
     response (serve POST_auth_verify_token req c rt)
     = Some (mkResponse 400 (error_body "Missing token" "ID token is required"))
     /\ calls (serve POST_auth_verify_token req c rt) = [])
  /\ (truthy (obj_get (req_body req) (js "idToken")) = true ->
      forall e,
        outcome (auth_verifyIdToken (obj_get (req_body req) (js "idToken")))
                (incoming c rt) = Throw e ->
        response (serve POST_auth_verify_token req c rt)
        = Some (mkResponse 401 invalid_token_verdict))
  /\ (truthy (obj_get (req_body req) (js "idToken")) = true ->
      forall d,
        outcome (auth_verifyIdToken (obj_get (req_body req) (js "idToken")))
                (incoming c rt) = Ok d ->
        response (serve POST_auth_verify_token req c rt)
        = Some (mkResponse 200 (valid_token_verdict d)))
  /\ (forall r,
        response (serve POST_auth_verify_token req c rt) = Some r ->
        status r <> 500).
Proof.
  unfold_route. unfold post_verify_token, auth_verifyIdToken, collaborator.
  unfold_route.
  destruct (truthy (obj_get (req_body req) (js "idToken"))) eqn:Ht; cbn.
  - split; [discriminate|].
    by_fault c; cbn;
      try (destruct (verifier c (obj_get (req_body req) (js "idToken")))
             as [d0|e0] eqn:Hv; cbn);
      (split; [intros _ e He | split; [intros _ d Hd | intros r Hr]]);
      try discriminate; try reflexivity;
      try (injection Hd as <-; reflexivity);
      try (injection Hr as <-; discriminate).
  - split; [intros _; split; reflexivity|].
    split; [discriminate|]. split; [discriminate|].
    intros r Hr. injection Hr as <-. discriminate.
Qed.

Lemma verify_token_outcomes_witness :
  truthy (obj_get (req_body good_token_request) (js "idToken")) = true
  /\ outcome (auth_verifyIdToken
                (obj_get (req_body good_token_request) (js "idToken")))
             (incoming demo_collab demo_runtime) = Ok demo_token
  /\ response (serve POST_auth_verify_token good_token_request demo_collab
                 demo_runtime)
     = Some (mkResponse 200 (valid_token_verdict demo_token))
  /\ response (serve POST_auth_verify_token good_token_request faulty_collab
                 demo_runtime)
     = Some (mkResponse 401 invalid_token_verdict).
Proof.
  split; [reflexivity|]. split; [reflexivity|]. split.
  - exact (proj1 (proj2 (proj2 (verify_token_outcomes good_token_request
                                  demo_collab demo_runtime)))
             eq_refl demo_token eq_refl).
  - exact (proj1 (proj2 (verify_token_outcomes good_token_request
                           faulty_collab demo_runtime))
             eq_refl transport_fault eq_refl).
Defined.

(** ** The authorization gate *)

Lemma gate_no_bearer req c rt next :
  no_bearer (req_authorization req) ->
  run (verifyToken req next) c rt
  = mkWorld c rt 0 [] (Some no_token_response).
Proof.
  intros [Hf | (s & Hs & Hp)]; unfold run, verifyToken; unfold_route.
  - rewrite Hf. reflexivity.
  - rewrite Hs. cbn. destruct s as [|x s]; [reflexivity|].
    cbn [truthy negb method_startsWith]. rewrite Hp. reflexivity.
Qed.

Lemma gate_not_a_string req c rt next :
  truthy (req_authorization req) = true ->
  (forall s, req_authorization req <> JStr s) ->
  run (verifyToken req next) c rt
  = mkWorld c rt 0 [] (Some authentication_error_response).
Proof.
  intros Ht Hs. unfold run, verifyToken; unfold_route. rewrite Ht.
  destruct (req_authorization req); try reflexivity.
  now destruct (Hs s).
Qed.

Lemma gate_bearer req c rt next s :
  req_authorization req = JStr s ->
  startsWith s (js "Bearer ") = true ->
  run (verifyToken req next) c rt
  = match auth_verifyIdToken (split_at s (js "Bearer ") 1) (incoming c rt) with
    | (Ok d, w1) => snd (express_next next (with_user req (identity_of d)) w1)
    | (Throw _, w1) =>
        mkWorld (collab w1) rt 0
                [CallVerifyIdToken (split_at s (js "Bearer ") 1)]
                (Some invalid_token_response)
    end.
Proof.
  intros Hs Hp. unfold run, verifyToken; unfold_route. rewrite Hs.
  assert (Ht : truthy (JStr s) = true) by (destruct s; [discriminate | reflexivity]).
  rewrite Ht. cbn [negb method_startsWith method_split_at]. rewrite Hp.
  cbn [negb].
  unfold auth_verifyIdToken, collaborator; cbn.
  by_fault c; cbn;
    try (destruct (verifier c (split_at s (js "Bearer ") 1)); cbn);
    try reflexivity;
    match goal with
    | |- context [next ?r ?w] => destruct (next r w) as [[[]|?] ?]; reflexivity
    end.
Qed.

(** What the verification call leaves behind: one more call in the log,
    the next fault consumed, nothing else touched. *)
Lemma verifyIdToken_world tok c rt :
  let w1 := snd (auth_verifyIdToken tok (incoming c rt)) in
  response w1 = None /\ calls w1 = [CallVerifyIdToken tok]
  /\ runtime w1 = rt /\ ticks w1 = 0%nat
  /\ principals (collab w1) = principals c
  /\ documents (collab w1) = documents c.
Proof.
  unfold auth_verifyIdToken, collaborator; cbn.
  by_fault c; cbn; repeat split; reflexivity.
Qed.

Lemma outcome_split {A} (m : M A) (w : World) :
  m w = (outcome m w, snd (m w)).
Proof. unfold outcome. now destruct (m w). Qed.

(** The verification call fails: 401, and the world is the same whatever
    the next handler is. *)
Lemma gate_verification_fails req c rt next s e :
  req_authorization req = JStr s ->
  startsWith s (js "Bearer ") = true ->
  outcome (auth_verifyIdToken (split_at s (js "Bearer ") 1)) (incoming c rt)
  = Throw e ->
  response (run (verifyToken req next) c rt) = Some invalid_token_response
  /\ calls (run (verifyToken req next) c rt)
     = [CallVerifyIdToken (split_at s (js "Bearer ") 1)]
  /\ principals (collab (run (verifyToken req next) c rt)) = principals c
  /\ documents (collab (run (verifyToken req next) c rt)) = documents c
  /\ forall next',
       run (verifyToken req next') c rt = run (verifyToken req next) c rt.
Proof.
  intros Hs Hp He.
  pose proof (verifyIdToken_world (split_at s (js "Bearer ") 1) c rt)
    as (_ & _ & _ & _ & Hps & Hds).
  assert (Hrun : forall k,
             run (verifyToken req k) c rt
             = mkWorld
                 (collab (snd (auth_verifyIdToken
                                 (split_at s (js "Bearer ") 1)
                                 (incoming c rt))))
                 rt 0 [CallVerifyIdToken (split_at s (js "Bearer ") 1)]
                 (Some invalid_token_response)).
  { intros k. rewrite (gate_bearer req c rt k s Hs Hp).
    rewrite (outcome_split (auth_verifyIdToken _)), He. reflexivity. }
  rewrite !Hrun. cbn. repeat split; assumption.
Qed.

(** The verification call succeeds: the next handler runs, on the request
    with the identity attached. *)
Lemma gate_verification_succeeds req c rt next s d :
  req_authorization req = JStr s ->
  startsWith s (js "Bearer ") = true ->
  outcome (auth_verifyIdToken (split_at s (js "Bearer ") 1)) (incoming c rt)
  = Ok d ->
  run (verifyToken req next) c rt
  = snd (express_next next (with_user req (identity_of d))
           (snd (auth_verifyIdToken (split_at s (js "Bearer ") 1)
                   (incoming c rt)))).
Proof.
  intros Hs Hp Hd. rewrite (gate_bearer req c rt next s Hs Hp).
  rewrite (outcome_split (auth_verifyIdToken _)), Hd. reflexivity.
Qed.

(** The header is of exactly one of three kinds. *)
Lemma header_kinds (a : JsVal) :
  no_bearer a
  \/ (exists s, a = JStr s /\ startsWith s (js "Bearer ") = true)
  \/ (truthy a = true /\ forall s, a <> JStr s).
Proof.
  unfold no_bearer.
  destruct a as [| |b|n|s|l|fs].
  - left; left; reflexivity.
  - left; left; reflexivity.
  - destruct b; [right; right; split; [reflexivity | discriminate]
                | left; left; reflexivity].
  - destruct (truthy (JNum n)) eqn:Ht;
      [right; right; split; [reflexivity | discriminate]
      | left; left; reflexivity].
  - destruct (startsWith s (js "Bearer ")) eqn:Hp.
    + right. left. now exists s.
    + left. right. now exists s.
  - right; right; split; [reflexivity | discriminate].
  - right; right; split; [reflexivity | discriminate].
Qed.

(** The gate answers 500 to a rejected request only when the header is
    not a string: a failure of the verification call never gets it. *)
Lemma gate_500_only_for_non_string req c rt next r :
  gate_admits req c rt = None ->
  response (run (verifyToken req next) c rt) = Some r ->
  status r = 500 ->
  truthy (req_authorization req) = true
  /\ forall s, req_authorization req <> JStr s.
Proof.
  intros Hg Hr H5.
  destruct (header_kinds (req_authorization req))
    as [Hnb | [(s & Hs & Hp) | Hc]]; [| |exact Hc].
  - rewrite (gate_no_bearer req c rt next Hnb) in Hr. cbn in Hr.
    injection Hr as <-. vm_compute in H5. discriminate.
  - unfold gate_admits in Hg. rewrite Hs, Hp in Hg.
    destruct (outcome _ _) as [d|e] eqn:Ho; [discriminate|].
    destruct (gate_verification_fails req c rt next s e Hs Hp Ho) as (Hr' & _).
    rewrite Hr' in Hr. injection Hr as <-. vm_compute in H5. discriminate.
Qed.

(** C1, as the claim states it, fails.  The claim keeps the 500
    [Authentication error] for the failures that are no verification
    failure, a transport error of the collaborator call for one.  Here the
    request to GET /auth/user carries [Bearer good], a token that the
    collaborator verifies when it is reached, and the verification call is
    rejected with a connection reset: the answer is the 401 [Invalid
    token], not the 500. *)
Lemma gate_transport_fault_is_401 :
  outcome (auth_verifyIdToken (JStr (js "good")))
          (incoming demo_collab demo_runtime) = Ok demo_token
  /\ outcome (auth_verifyIdToken (JStr (js "good")))
             (incoming faulty_collab demo_runtime) = Throw transport_fault
  /\ response (serve GET_auth_user (inbound (JStr (js "Bearer good")) [] [])
                 faulty_collab demo_runtime)
     = Some invalid_token_response
  /\ status invalid_token_response = 401
  /\ response (serve GET_auth_user (inbound (JStr (js "Bearer good")) [] [])
                 faulty_collab demo_runtime)
     <> Some authentication_error_response.
Proof. repeat split; try reflexivity. vm_compute. discriminate. Qed.

(** C1, as the code has it.  The mandatory gate, on every request: (a) the
    header is absent, empty, or a string without the [Bearer ] marker in
    front: 401 [No token provided], no call is made and the handler never
    runs; (b) the marker is there and the verification call of the
    collaborator fails, whatever makes it fail (an invalid token or a
    fault of the transport): 401 [Invalid token], only that one call has
    been made and the handler never runs; (c) the verification call
    succeeds: the identity is attached and the next handler runs; (d) the
    gate fails outside the verification call, which means a header that is
    not a string: 500 [Authentication error].  Every header falls under
    (a), under (b) or (c), or under (d), so a request gets exactly one of
    these; and a rejection with status 500 is under (d), never the answer
    to a failure of the collaborator call. *)
Theorem gate_outcomes (req : Request) (c : Collab) (rt : Runtime)
    (next : Request -> M unit) :
  (no_bearer (req_authorization req) ->
     run (verifyToken req next) c rt
     = mkWorld c rt 0 [] (Some no_token_response))
  /\ (forall s e,
        req_authorization req = JStr s ->
        startsWith s (js "Bearer ") = true ->
        outcome (auth_verifyIdToken (split_at s (js "Bearer ") 1))
                (incoming c rt) = Throw e ->
        response (run (verifyToken req next) c rt)
        = Some invalid_token_response
        /\ calls (run (verifyToken req next) c rt)
           = [CallVerifyIdToken (split_at s (js "Bearer ") 1)]
        /\ principals (collab (run (verifyToken req next) c rt))
           = principals c
        /\ documents (collab (run (verifyToken req next) c rt))
           = documents c
        /\ forall next',
             run (verifyToken req next') c rt
             = run (verifyToken req next) c rt)
  /\ (forall s d,
        req_authorization req = JStr s ->
        startsWith s (js "Bearer ") = true ->
        outcome (auth_verifyIdToken (split_at s (js "Bearer ") 1))
                (incoming c rt) = Ok d ->
        run (verifyToken req next) c rt
        = snd (express_next next (with_user req (identity_of d))
                 (snd (auth_verifyIdToken (split_at s (js "Bearer ") 1)
                         (incoming c rt)))))
  /\ (truthy (req_authorization req) = true ->
      (forall s, req_authorization req <> JStr s) ->
      run (verifyToken req next) c rt
      = mkWorld c rt 0 [] (Some authentication_error_response))
  /\ (no_bearer (req_authorization req)
      \/ (exists s, req_authorization req = JStr s
                    /\ startsWith s (js "Bearer ") = true)
      \/ (truthy (req_authorization req) = true
          /\ forall s, req_authorization req <> JStr s))
  /\ (forall r,
        gate_admits req c rt = None ->
        response (run (verifyToken req next) c rt) = Some r ->
        status r = 500 ->
        truthy (req_authorization req) = true
        /\ forall s, req_authorization req <> JStr s).
Proof.
  split; [apply gate_no_bearer|].
  split; [intros s e; apply gate_verification_fails|].
  split; [intros s d; apply gate_verification_succeeds|].
  split; [apply gate_not_a_string|].
  split; [apply header_kinds|].
  intros r. apply gate_500_only_for_non_string.
Qed.

Lemma gate_outcomes_witness :
  req_authorization (inbound (JStr (js "Bearer good")) [] [])
  = JStr (js "Bearer good")
  /\ startsWith (js "Bearer good") (js "Bearer ") = true
  /\ outcome (auth_verifyIdToken (split_at (js "Bearer good") (js "Bearer ") 1))
             (incoming faulty_collab demo_runtime) = Throw transport_fault
  /\ response (run (verifyToken (inbound (JStr (js "Bearer good")) [] [])
                      get_user) faulty_collab demo_runtime)
     = Some invalid_token_response.
Proof.
  split; [reflexivity|]. split; [reflexivity|]. split; [reflexivity|].
  exact (proj1 (proj1 (proj2 (gate_outcomes
                                (inbound (JStr (js "Bearer good")) [] [])
                                faulty_collab demo_runtime get_user))
                  (js "Bearer good") transport_fault
                  eq_refl eq_refl eq_refl)).
Defined.

(** A route is the gate followed by its handler. *)
Lemma gated_route ep h req c rt :
  gated_handler ep = Some h ->
  serve ep req c rt = run (verifyToken req h) c rt.
Proof.
  intros Hh. unfold serve, run.
  assert (Hr : route ep req = async_route (verifyToken req h)).
  { destruct ep; inversion Hh; reflexivity. }
  rewrite Hr. unfold async_route, async_call, try_catch.
  destruct (verifyToken req h (incoming c rt)) as [[[]|e] w]; reflexivity.
Qed.


Lemma gate_admits_some req c rt u :
  gate_admits req c rt = Some u ->
  exists s d,
    req_authorization req = JStr s
    /\ startsWith s (js "Bearer ") = true
    /\ outcome (auth_verifyIdToken (split_at s (js "Bearer ") 1))
               (incoming c rt) = Ok d
    /\ u = identity_of d.
Proof.
  unfold gate_admits. intros H.
  destruct (req_authorization req) as [| | | |s| |]; try discriminate.
  destruct (startsWith s (js "Bearer ")) eqn:Hp; [|discriminate].
  destruct (outcome _ _) as [d|e] eqn:Ho; [|discriminate].
  injection H as <-. now exists s, d.
Qed.

Lemma gate_rejects req c rt next :
  gate_admits req c rt = None ->
  (response (run (verifyToken req next) c rt) = Some no_token_response
   \/ response (run (verifyToken req next) c rt)
      = Some invalid_token_response
   \/ response (run (verifyToken req next) c rt)
      = Some authentication_error_response)
  /\ existsb handler_call (calls (run (verifyToken req next) c rt)) = false
  /\ principals (collab (run (verifyToken req next) c rt)) = principals c
  /\ documents (collab (run (verifyToken req next) c rt)) = documents c
  /\ forall next',
       run (verifyToken req next') c rt = run (verifyToken req next) c rt.
Proof.
  intros Hg.
  pose proof (gate_no_bearer req c rt next) as Ha.
  pose proof (fun s e => gate_verification_fails req c rt next s e) as Hb.
  pose proof (gate_not_a_string req c rt next) as Hd.
  destruct (truthy (req_authorization req)) eqn:Ht.
  - destruct (req_authorization req) as [| | | |s| |] eqn:Hs;
      try (rewrite Hd by (reflexivity || discriminate); cbn;
           repeat split; auto;
           intros next'; now rewrite (gate_not_a_string req c rt next')
             by (rewrite ?Hs; first [exact Ht | discriminate])).
    unfold gate_admits in Hg. rewrite Hs in Hg.
    destruct (startsWith s (js "Bearer ")) eqn:Hp.
    + destruct (outcome _ _) as [d|e] eqn:Ho; [discriminate|].
      destruct (Hb s e eq_refl Hp Ho) as (Hr & Hc & Hps & Hds & Hn).
      rewrite Hr, Hc. cbn. repeat split; auto.
    + assert (Hnb : no_bearer (req_authorization req))
        by (right; exists s; now rewrite Hs).
      rewrite Hs in Hnb.
      rewrite Ha by exact Hnb. cbn. repeat split; auto.
      intros next'. rewrite <- Hs in Hnb.
      now rewrite (gate_no_bearer req c rt next' Hnb).
  - assert (Hnb : no_bearer (req_authorization req)) by now left.
    rewrite Ha by exact Hnb. cbn. repeat split; auto.
    intros next'. now rewrite (gate_no_bearer req c rt next' Hnb).
Qed.

(** C2. On GET, PUT and DELETE /auth/user the handler runs only behind the
    gate: when the gate resolves an identity, the handler runs once, on
    the request with that identity attached, in a world where nothing has
    been sent and the only call so far is the verification; when the gate
    resolves none, the answer is one of the gate's own, no call has been
    made for the handler, accounts and documents are untouched, and the
    outcome is the same whatever the handler is. *)
Theorem gated_routes_run_behind_gate (ep : Endpoint) (h : Request -> M unit)
    (req : Request) (c : Collab) (rt : Runtime) :
  gated_handler ep = Some h ->
  (forall u,
     gate_admits req c rt = Some u ->
     exists w1,
       serve ep req c rt = snd (async_call (h (with_user req u)) w1)
       /\ req_user (with_user req u) = Some u
       /\ response w1 = None
       /\ existsb handler_call (calls w1) = false
       /\ principals (collab w1) = principals c
       /\ documents (collab w1) = documents c)
  /\ (gate_admits req c rt = None ->
      (response (serve ep req c rt) = Some no_token_response
       \/ response (serve ep req c rt) = Some invalid_token_response
       \/ response (serve ep req c rt) = Some authentication_error_response)
      /\ existsb handler_call (calls (serve ep req c rt)) = false
      /\ principals (collab (serve ep req c rt)) = principals c
      /\ documents (collab (serve ep req c rt)) = documents c
      /\ forall h' : Request -> M unit,
           run (verifyToken req h') c rt = serve ep req c rt).
Proof.
  intros Hh. rewrite (gated_route ep h req c rt Hh). split.
  - intros u Hu.
    destruct (gate_admits_some req c rt u Hu) as (s & d & Hs & Hp & Ho & ->).
    exists (snd (auth_verifyIdToken (split_at s (js "Bearer ") 1)
                   (incoming c rt))).
    rewrite (gate_verification_succeeds req c rt h s d Hs Hp Ho).
    pose proof (verifyIdToken_world (split_at s (js "Bearer ") 1) c rt)
      as (Hr & Hcalls & _ & _ & Hps & Hds).
    cbv zeta in Hr, Hcalls, Hps, Hds.
    rewrite Hcalls. repeat split; auto.
  - intros Hg. exact (gate_rejects req c rt h Hg).
Qed.

Lemma gated_routes_run_behind_gate_witness :
  gated_handler GET_auth_user = Some get_user
  /\ gate_admits (inbound JUndefined [] []) demo_collab demo_runtime = None
  /\ existsb handler_call
       (calls (serve GET_auth_user (inbound JUndefined [] [])
                 demo_collab demo_runtime)) = false
  /\ documents (collab (serve GET_auth_user (inbound JUndefined [] [])
                          demo_collab demo_runtime))
     = documents demo_collab.
Proof.
  split; [reflexivity|]. split; [reflexivity|].
  destruct (proj2 (gated_routes_run_behind_gate GET_auth_user get_user
                     (inbound JUndefined [] []) demo_collab demo_runtime
                     eq_refl) eq_refl)
    as (_ & Hcalls & _ & Hdocs & _).
  split; assumption.
Defined.

(** ** Collaborator calls *)

(** A collaborator call adds itself to the log and leaves the response,
    the clock and the earlier calls alone. *)
Lemma collaborator_frame {A} (k : Call) (sem : Collab -> Result A * Collab)
    (w : World) :
  response (snd (collaborator k sem w)) = response w
  /\ calls (snd (collaborator k sem w)) = calls w ++ [k]
  /\ runtime (snd (collaborator k sem w)) = runtime w
  /\ ticks (snd (collaborator k sem w)) = ticks w.
Proof.
  unfold collaborator. cbn.
  destruct (faults (collab w)) as [|[e|] rest]; cbn; auto.
Qed.

(** How a collaborator call goes, by the fault schedule. *)
Lemma collaborator_cases {A} (k : Call) (sem : Collab -> Result A * Collab)
    (w : World) :
  (exists e rest,
      faults (collab w) = Some e :: rest
      /\ collaborator k sem w
         = (Throw e, set_collab (set_faults rest (collab w)) (log_call k w)))
  \/ (exists c0,
        (c0 = collab w \/ exists rest, faults (collab w) = None :: rest
                                       /\ c0 = set_faults rest (collab w))
        /\ collaborator k sem w
           = (fst (sem c0), set_collab (snd (sem c0)) (log_call k w))).
Proof.
  unfold collaborator. cbn.
  destruct (faults (collab w)) as [|[e|] rest] eqn:Hf.
  - right. exists (collab w). split; [now left | reflexivity].
  - left. now exists e, rest.
  - right. exists (set_faults rest (collab w)). split; [|reflexivity].
    right. now exists rest.
Qed.

Lemma createUser_sem_throw props c e c' :
  createUser_sem props c = (Throw e, c') -> c' = c.
Proof.
  unfold createUser_sem. intros H.
  repeat match type of H with
         | (match ?x with _ => _ end) = _ => destruct x
         | (if ?x then _ else _) = _ => destruct x
         end; congruence.
Qed.

Lemma createUser_sem_ok props c u c' :
  createUser_sem props c = (Ok u, c') ->
  exists p,
    principals c' = <[ur_uid u := p]> (principals c)
    /\ p_displayName p = obj_get props (js "displayName")
    /\ p_photoURL p = obj_get props (js "photoURL")
    /\ ur_displayName u = obj_get props (js "displayName")
    /\ ur_photoURL u = obj_get props (js "photoURL")
    /\ documents c' = documents c
    /\ faults c' = faults c.
Proof.
  unfold createUser_sem. intros H.
  repeat match type of H with
         | (match ?x with _ => _ end) = _ => destruct x
         | (if ?x then _ else _) = _ => destruct x
         end; try discriminate.
  injection H as <- <-. eexists. cbn. repeat split; reflexivity.
Qed.

(** ** POST /auth/register *)

Lemma register_rejected_early req c rt :
  truthy (body_email req) = false \/ truthy (body_password req) = false ->
  serve POST_auth_register req c rt
  = mkWorld c rt 0 [] (Some missing_fields_response).
Proof.
  unfold body_email, body_password.
  intros H. unfold serve, route, post_register. unfold_route.
  destruct H as [-> | ->]; [reflexivity|].
  rewrite orb_true_r. reflexivity.
Qed.

Lemma register_too_short req c rt :
  truthy (body_email req) = true -> truthy (body_password req) = true ->
  js_lt rt (js_length (body_password req)) 6 = true ->
  serve POST_auth_register req c rt
  = mkWorld c rt 0 [] (Some password_too_short_response).
Proof.
  unfold body_email, body_password.
  intros He Hp Hl. unfold serve, route, post_register, less_than. unfold_route.
  rewrite He, Hp. cbn. rewrite Hl. reflexivity.
Qed.

(** What a registration does once validation has passed. *)
Lemma register_validated req c rt :
  truthy (body_email req) = true -> truthy (body_password req) = true ->
  js_lt rt (js_length (body_password req)) 6 = false ->
  serve POST_auth_register req c rt
  = match auth_createUser (registration_props req) (incoming c rt) with
    | (Throw e, w1) =>
        mkWorld (collab w1) rt 0 [CallCreateUser (registration_props req)]
          (Some (if strict_eq_str (err_code e) (js "auth/email-already-exists")
                 then user_exists_response
                 else registration_failed_response))
    | (Ok u, w1) =>
        let data := user_document u (body_displayName req) (body_photoURL req)
                      (iso_time rt 0%nat) (iso_time rt 1%nat) in
        match db_set users (ur_uid u) data (after_creation req c rt) with
        | (Throw e, w2) =>
            mkWorld (collab w2) rt 2
              [CallCreateUser (registration_props req);
               CallDocSet users (ur_uid u) data]
              (Some (if strict_eq_str (err_code e)
                          (js "auth/email-already-exists")
                     then user_exists_response
                     else registration_failed_response))
        | (Ok _, w2) =>
            mkWorld (collab w2) rt 2
              [CallCreateUser (registration_props req);
               CallDocSet users (ur_uid u) data]
              (Some (mkResponse 201 (registered_body u)))
        end
    end.
Proof.
  intros He Hp Hl. unfold after_creation, registration_props.
  unfold body_email, body_password, body_displayName, body_photoURL in *.
  unfold serve, route, post_register, less_than. unfold_route.
  rewrite He, Hp. cbn. rewrite Hl. cbn.
  unfold auth_createUser, db_set, collaborator. cbn.
  by_fault c; cbn;
    try (destruct (createUser_sem _ _) as [[u|e] c1] eqn:Hc; cbn;
         [destruct (faults c1) as [|[e1|] rest1]; cbn |]);
    repeat match goal with
           | |- context [strict_eq_str ?a ?b] => destruct (strict_eq_str a b)
           end;
    reflexivity.
Qed.

Lemma js_lt_length_string rt (s : jsstring) (n : Z) :
  js_lt rt (js_length (JStr s)) n = (Z.of_nat (length s) <? n).
Proof. reflexivity. Qed.

(** C3. POST /auth/register validates before it calls the collaborator:
    a missing or empty (falsy) email or password gives 400 [Missing
    required fields] (the message names both fields); otherwise a password
    of fewer than 6 code units gives 400 [Password too short]; in both
    cases the world is left as it was, with no call made.  A password of
    exactly 6 code units passes: the principal-creation call is made with
    it and the answer is not a 400. *)
Theorem register_validation (req : Request) (c : Collab)
    (rt : Runtime) :
  (truthy (body_email req) = false \/ truthy (body_password req) = false ->
     serve POST_auth_register req c rt
     = mkWorld c rt 0 [] (Some missing_fields_response))
  /\ (forall s,
        truthy (body_email req) = true ->
        body_password req = JStr s -> s <> [] -> (length s < 6)%nat ->
        serve POST_auth_register req c rt
        = mkWorld c rt 0 [] (Some password_too_short_response))
  /\ (forall s,
        truthy (body_email req) = true ->
        body_password req = JStr s -> length s = 6%nat ->
        (exists rest,
            calls (serve POST_auth_register req c rt)
            = CallCreateUser (registration_props req) :: rest)
        /\ obj_get (registration_props req) (js "password") = JStr s
        /\ forall r,
             response (serve POST_auth_register req c rt) = Some r ->
             status r <> 400).
Proof.
  split; [apply register_rejected_early|]. split.
  - intros s He Hp Hne Hlen. apply register_too_short; auto.
    + rewrite Hp. now apply truthy_nonempty.
    + rewrite Hp, js_lt_length_string. apply Z.ltb_lt. lia.
  - intros s He Hp Hlen.
    assert (Ht : truthy (body_password req) = true).
    { rewrite Hp. destruct s; [discriminate | reflexivity]. }
    assert (Hl : js_lt rt (js_length (body_password req)) 6 = false).
    { rewrite Hp, js_lt_length_string, Hlen. reflexivity. }
    rewrite (register_validated req c rt He Ht Hl).
    split; [| split].
    + destruct (auth_createUser _ _) as [[u|e] w1]; cbn;
        [destruct (db_set _ _ _ _) as [[[]|e] w2] |]; cbn; eauto.
    + unfold registration_props, new_user_props. now rewrite Hp.
    + intros r.
      destruct (auth_createUser _ _) as [[u|e] w1]; cbn;
        [destruct (db_set _ _ _ _) as [[[]|e] w2] |]; cbn;
        repeat match goal with
               | |- context [strict_eq_str ?a ?b] => destruct (strict_eq_str a b)
               end;
        intros Hr; injection Hr as <-; discriminate.
Qed.

Lemma register_validation_witness :
  truthy (body_email short_password_request) = true
  /\ body_password short_password_request = JStr (js "12345")
  /\ serve POST_auth_register short_password_request demo_collab demo_runtime
     = mkWorld demo_collab demo_runtime 0 [] (Some password_too_short_response)
  /\ body_password named_request = JStr (js "secret")
  /\ exists rest,
       calls (serve POST_auth_register named_request demo_collab demo_runtime)
       = CallCreateUser (registration_props named_request) :: rest.
Proof.
  split; [reflexivity|]. split; [reflexivity|]. split.
  - apply (proj1 (proj2 (register_validation short_password_request
                           demo_collab demo_runtime)) (js "12345"));
      [reflexivity | reflexivity | discriminate | vm_compute; lia].
  - split; [reflexivity|].
    apply (proj2 (proj2 (register_validation named_request demo_collab
                           demo_runtime)) (js "secret"));
      reflexivity.
Defined.

(** The stores across the creation of a principal. *)
Lemma auth_createUser_stores props w :
  documents (collab (snd (auth_createUser props w))) = documents (collab w)
  /\ (forall e,
        outcome (auth_createUser props) w = Throw e ->
        principals (collab (snd (auth_createUser props w)))
        = principals (collab w))
  /\ (forall u,
        outcome (auth_createUser props) w = Ok u ->
        exists p,
          principals (collab (snd (auth_createUser props w)))
          = <[ur_uid u := p]> (principals (collab w))
          /\ p_displayName p = obj_get props (js "displayName")
          /\ p_photoURL p = obj_get props (js "photoURL")
          /\ ur_displayName u = obj_get props (js "displayName")
          /\ ur_photoURL u = obj_get props (js "photoURL")).
Proof.
  unfold outcome, auth_createUser.
  destruct (collaborator_cases (CallCreateUser props) (createUser_sem props) w)
    as [(e & rest & Hf & ->) | (c0 & Hc0 & ->)]; cbn.
  - repeat split; auto. intros u H; discriminate.
  - assert (Hd : documents c0 = documents (collab w))
      by (destruct Hc0 as [-> | (rest & _ & ->)]; reflexivity).
    assert (Hp : principals c0 = principals (collab w))
      by (destruct Hc0 as [-> | (rest & _ & ->)]; reflexivity).
    destruct (createUser_sem props c0) as [[u|e] c1] eqn:Hs; cbn.
    + destruct (createUser_sem_ok _ _ _ _ Hs)
        as (p & Hps & Hdn & Hph & Hudn & Huph & Hds & _).
      split; [congruence|]. split; [intros e H; discriminate|].
      intros u' Hu. injection Hu as <-. exists p. rewrite Hps, Hp. auto.
    + apply createUser_sem_throw in Hs as ->.
      split; [exact Hd|]. split; [intros _ _; exact Hp|].
      intros u H; discriminate.
Qed.

(** The stores across the write of a document. *)
Lemma db_set_stores coll id data w :
  principals (collab (snd (db_set coll id data w))) = principals (collab w)
  /\ (forall e,
        outcome (db_set coll id data) w = Throw e ->
        documents (collab (snd (db_set coll id data w)))
        = documents (collab w))
  /\ (forall t,
        outcome (db_set coll id data) w = Ok t ->
        documents (collab (snd (db_set coll id data w)))
        = <[(coll, id) := data]> (documents (collab w))).
Proof.
  unfold outcome, db_set, collaborator. cbn.
  destruct (faults (collab w)) as [|[e|] rest]; cbn;
    repeat split; auto; intros; discriminate.
Qed.

Lemma after_creation_collab req c rt :
  collab (after_creation req c rt)
  = collab (snd (auth_createUser (registration_props req) (incoming c rt))).
Proof. reflexivity. Qed.

(** C4. A registration that has passed validation: when the creation of
    the principal fails with [auth/email-already-exists] the answer is 409
    [User already exists] and no document is written; when it fails
    otherwise, or when the write of the profile document fails (the
    handler knows the 409 case by the code of the error alone, so: with an
    error that does not carry that code), the answer is 500 [Registration
    failed]; the document is only ever written after the principal has
    been created. *)
Theorem register_failures (req : Request) (c : Collab) (rt : Runtime) :
  truthy (body_email req) = true ->
  truthy (body_password req) = true ->
  js_lt rt (js_length (body_password req)) 6 = false ->
  (forall e,
     outcome (auth_createUser (registration_props req)) (incoming c rt)
     = Throw e ->
     strict_eq_str (err_code e) (js "auth/email-already-exists") = true ->
     response (serve POST_auth_register req c rt) = Some user_exists_response
     /\ calls (serve POST_auth_register req c rt)
        = [CallCreateUser (registration_props req)]
     /\ documents (collab (serve POST_auth_register req c rt)) = documents c)
  /\ (forall e,
        outcome (auth_createUser (registration_props req)) (incoming c rt)
        = Throw e ->
        strict_eq_str (err_code e) (js "auth/email-already-exists") = false ->
        response (serve POST_auth_register req c rt)
        = Some registration_failed_response
        /\ calls (serve POST_auth_register req c rt)
           = [CallCreateUser (registration_props req)]
        /\ documents (collab (serve POST_auth_register req c rt))
           = documents c)
  /\ (forall u e,
        outcome (auth_createUser (registration_props req)) (incoming c rt)
        = Ok u ->
        outcome (db_set users (ur_uid u)
                   (user_document u (body_displayName req) (body_photoURL req)
                      (iso_time rt 0%nat) (iso_time rt 1%nat)))
                (after_creation req c rt) = Throw e ->
        strict_eq_str (err_code e) (js "auth/email-already-exists") = false ->
        response (serve POST_auth_register req c rt)
        = Some registration_failed_response
        /\ documents (collab (serve POST_auth_register req c rt))
           = documents c)
  /\ (calls (serve POST_auth_register req c rt)
      = [CallCreateUser (registration_props req)]
      \/ exists uid data,
           calls (serve POST_auth_register req c rt)
           = [CallCreateUser (registration_props req);
              CallDocSet users uid data]).
Proof.
  intros He Hp Hl. rewrite (register_validated req c rt He Hp Hl).
  destruct (auth_createUser_stores (registration_props req) (incoming c rt))
    as (Hdocs & Hthrow & _).
  rewrite (outcome_split (auth_createUser (registration_props req))
             (incoming c rt)).
  destruct (outcome (auth_createUser (registration_props req))
              (incoming c rt)) as [u|e] eqn:Ho.
  - split; [intros e' H'; discriminate|].
    split; [intros e' H'; discriminate|]. split.
    + intros u' e' Hu Hs Hcode. injection Hu as <-.
      destruct (db_set_stores users (ur_uid u)
                  (user_document u (body_displayName req) (body_photoURL req)
                     (iso_time rt 0%nat) (iso_time rt 1%nat)) (after_creation req c rt))
        as (_ & Hset & _).
      specialize (Hset e' Hs).
      cbv zeta. rewrite (outcome_split (db_set _ _ _)), Hs.
      set (w2 := snd (db_set _ _ _ _)) in *. cbn. rewrite Hcode.
      split; [reflexivity|]. rewrite Hset, after_creation_collab. exact Hdocs.
    + right. cbv zeta. destruct (db_set _ _ _ _) as [[[]|e'] w2]; cbn; eauto.
  - split; [| split; [| split]].
    + intros e' He' Hcode. injection He' as <-. cbn. rewrite Hcode.
      repeat split; auto.
    + intros e' He' Hcode. injection He' as <-. cbn. rewrite Hcode.
      repeat split; auto.
    + intros u' e' Hu; discriminate.
    + left. reflexivity.
Qed.

Lemma register_failures_witness :
  truthy (body_email named_request) = true
  /\ truthy (body_password named_request) = true
  /\ js_lt demo_runtime (js_length (body_password named_request)) 6 = false
  /\ response (serve POST_auth_register named_request demo_collab demo_runtime)
     = Some (mkResponse 201
               (registered_body
                  (mkUserRecord (demo_uid 0) (JStr (js "ann@example.com"))
                     (JStr (js "Ann")) JUndefined (JBool false))))
  /\ response (serve POST_auth_register named_request registered_collab
                 demo_runtime)
     = Some user_exists_response
  /\ calls (serve POST_auth_register named_request registered_collab
              demo_runtime)
     = [CallCreateUser (registration_props named_request)].
Proof.
  split; [reflexivity|]. split; [reflexivity|]. split; [reflexivity|].
  split; [vm_compute; reflexivity|].
  destruct (proj1 (register_failures named_request registered_collab demo_runtime
                     eq_refl eq_refl eq_refl)
              email_exists_error) as (Hr & Hc & _);
    [vm_compute; reflexivity | reflexivity |].
  split; assumption.
Defined.

(** C10, as the claim states it, fails for the empty string: a
    registration with [displayName: ""] succeeds, and the document stores
    [null] and the principal no display name, not the empty string. *)
Lemma register_empty_display_name_is_dropped :
  body_displayName empty_name_request = JStr []
  /\ response (serve POST_auth_register empty_name_request demo_collab
                 demo_runtime)
     = Some (mkResponse 201
               (registered_body
                  (mkUserRecord (demo_uid 0) (JStr (js "ann@example.com"))
                     JUndefined JUndefined (JBool false))))
  /\ option_map (fun d => field d (js "displayName"))
       (documents (collab (serve POST_auth_register empty_name_request
                             demo_collab demo_runtime))
          !! (users, demo_uid 0))
     = Some JNull
  /\ option_map p_displayName
       (principals (collab (serve POST_auth_register empty_name_request
                              demo_collab demo_runtime))
          !! demo_uid 0)
     = Some JUndefined
  /\ JNull <> JStr [] /\ JUndefined <> JStr [].
Proof.
  split; [reflexivity|]. split; [vm_compute; reflexivity|].
  split; [vm_compute; reflexivity|]. split; [vm_compute; reflexivity|].
  split; discriminate.
Qed.

Lemma passes_through_js_or (v : JsVal) :
  passes_through v (js_or v JUndefined) (js_or v JNull).
Proof. unfold passes_through, js_or. split; intros ->; auto. Qed.

(** C10, as the code has it. After a successful registration (201) the
    principal just created and the profile document stored under its uid
    carry the [displayName] and the [photoURL] of the body unchanged when
    the value is truthy (so for every non-empty string); when the value is
    absent or falsy (the empty string included) the principal is created
    without it and the document stores [null]. *)
Theorem register_profile_fields (req : Request) (c : Collab)
    (rt : Runtime) (r : Response) :
  response (serve POST_auth_register req c rt) = Some r ->
  status r = 201 ->
  exists u p data,
    outcome (auth_createUser (registration_props req)) (incoming c rt) = Ok u
    /\ principals (collab (serve POST_auth_register req c rt)) !! ur_uid u
       = Some p
    /\ documents (collab (serve POST_auth_register req c rt))
         !! (users, ur_uid u) = Some data
    /\ passes_through (body_displayName req) (p_displayName p)
         (field data (js "displayName"))
    /\ passes_through (body_photoURL req) (p_photoURL p)
         (field data (js "photoURL"))
    /\ (forall s, body_displayName req = JStr s -> s <> [] ->
          p_displayName p = JStr s /\ field data (js "displayName") = JStr s)
    /\ (forall s, body_photoURL req = JStr s -> s <> [] ->
          p_photoURL p = JStr s /\ field data (js "photoURL") = JStr s)
    /\ (body_displayName req = JUndefined ->
        field data (js "displayName") = JNull)
    /\ (body_photoURL req = JUndefined -> field data (js "photoURL") = JNull).
Proof.
  intros Hr Hst.
  destruct (truthy (body_email req)) eqn:He;
    [| rewrite register_rejected_early in Hr by (now left);
       injection Hr as <-; discriminate].
  destruct (truthy (body_password req)) eqn:Hp;
    [| rewrite register_rejected_early in Hr by (now right);
       injection Hr as <-; discriminate].
  destruct (js_lt rt (js_length (body_password req)) 6) eqn:Hl;
    [rewrite register_too_short in Hr by assumption;
     injection Hr as <-; discriminate |].
  rewrite (register_validated req c rt He Hp Hl) in Hr |- *.
  destruct (auth_createUser_stores (registration_props req) (incoming c rt))
    as (_ & _ & Hok).
  rewrite (outcome_split (auth_createUser (registration_props req))
             (incoming c rt)) in Hr |- *.
  destruct (outcome (auth_createUser (registration_props req))
              (incoming c rt)) as [u|e] eqn:Ho.
  2:{ cbn in Hr. destruct (strict_eq_str _ _); injection Hr as <-;
      discriminate. }
  destruct (Hok u eq_refl) as (p & Hps & Hdn & Hph & _).
  cbv zeta in Hr |- *.
  destruct (db_set_stores users (ur_uid u)
              (user_document u (body_displayName req) (body_photoURL req)
                 (iso_time rt 0%nat) (iso_time rt 1%nat)) (after_creation req c rt))
    as (Hsp & _ & Hsd).
  rewrite (outcome_split (db_set _ _ _)) in Hr |- *.
  destruct (outcome (db_set _ _ _) _) as [[]|e] eqn:Hs.
  2:{ cbn in Hr. destruct (strict_eq_str _ _); injection Hr as <-;
      discriminate. }
  specialize (Hsd tt eq_refl).
  set (w2 := snd (db_set _ _ _ _)) in *. cbn [collab fst snd].
  exists u, p,
    (user_document u (body_displayName req) (body_photoURL req)
       (iso_time rt 0%nat) (iso_time rt 1%nat)).
  assert (Hpd : passes_through (body_displayName req) (p_displayName p)
                  (field (user_document u (body_displayName req)
                            (body_photoURL req) (iso_time rt 0%nat) (iso_time rt 1%nat))
                         (js "displayName"))).
  { rewrite Hdn. apply passes_through_js_or. }
  assert (Hpp : passes_through (body_photoURL req) (p_photoURL p)
                  (field (user_document u (body_displayName req)
                            (body_photoURL req) (iso_time rt 0%nat) (iso_time rt 1%nat))
                         (js "photoURL"))).
  { rewrite Hph. apply passes_through_js_or. }
  split; [reflexivity|].
  split; [rewrite Hsp, after_creation_collab, Hps; apply lookup_insert_eq|].
  split; [rewrite Hsd; apply lookup_insert_eq|].
  split; [exact Hpd|]. split; [exact Hpp|].
  split; [| split; [| split]].
  - intros s Hs' Hne. destruct (proj1 Hpd) as [H1 H2];
      [rewrite Hs'; now apply truthy_nonempty|].
    split; [rewrite H1 | rewrite H2]; exact Hs'.
  - intros s Hs' Hne. destruct (proj1 Hpp) as [H1 H2];
      [rewrite Hs'; now apply truthy_nonempty|].
    split; [rewrite H1 | rewrite H2]; exact Hs'.
  - intros Hu. apply (proj2 Hpd). now rewrite Hu.
  - intros Hu. apply (proj2 Hpp). now rewrite Hu.
Qed.

Lemma register_profile_fields_witness :
  response (serve POST_auth_register named_request demo_collab demo_runtime)
  = Some (mkResponse 201
            (registered_body
               (mkUserRecord (demo_uid 0) (JStr (js "ann@example.com"))
                  (JStr (js "Ann")) JUndefined (JBool false))))
  /\ status (mkResponse 201
               (registered_body
                  (mkUserRecord (demo_uid 0) (JStr (js "ann@example.com"))
                     (JStr (js "Ann")) JUndefined (JBool false)))) = 201
  /\ exists u p data,
       outcome (auth_createUser (registration_props named_request))
               (incoming demo_collab demo_runtime) = Ok u
       /\ principals (collab (serve POST_auth_register named_request
                                demo_collab demo_runtime)) !! ur_uid u = Some p
       /\ documents (collab (serve POST_auth_register named_request
                               demo_collab demo_runtime))
            !! (users, ur_uid u) = Some data
       /\ p_displayName p = JStr (js "Ann")
       /\ field data (js "displayName") = JStr (js "Ann")
       /\ field data (js "photoURL") = JNull.
Proof.
  assert (Hr : response (serve POST_auth_register named_request demo_collab
                           demo_runtime)
               = Some (mkResponse 201
                         (registered_body
                            (mkUserRecord (demo_uid 0)
                               (JStr (js "ann@example.com"))
                               (JStr (js "Ann")) JUndefined (JBool false)))))
    by (vm_compute; reflexivity).
  split; [exact Hr|]. split; [reflexivity|].
  destruct (register_profile_fields named_request demo_collab demo_runtime _
              Hr eq_refl)
    as (u & p & data & Ho & Hp & Hd & _ & _ & Hdn & _ & _ & Hph).
  exists u, p, data.
  destruct (Hdn (js "Ann") eq_refl ltac:(discriminate)) as [H1 H2].
  repeat split; auto.
Defined.

(** ** Field paths of documents *)

Lemma str_eqb_sym (a b : jsstring) : str_eqb a b = str_eqb b a.
Proof.
  destruct (str_eqb a b) eqn:H.
  - apply str_eqb_eq in H as ->. now rewrite str_eqb_refl.
  - symmetry. apply str_eqb_neq. apply str_eqb_neq in H. congruence.
Qed.

Lemma obj_get_set_same (fs : JsObject) k v : obj_get (obj_set fs k v) k = v.
Proof.
  induction fs as [|[k' v'] fs IH]; cbn.
  - now rewrite str_eqb_refl.
  - destruct (str_eqb k' k) eqn:E; cbn; rewrite E; [reflexivity | exact IH].
Qed.

Lemma obj_get_set_other (fs : JsObject) k k' v :
  str_eqb k k' = false -> obj_get (obj_set fs k v) k' = obj_get fs k'.
Proof.
  intros Hne. induction fs as [|[k0 v0] fs IH]; cbn.
  - now rewrite Hne.
  - destruct (str_eqb k0 k) eqn:E; cbn.
    + apply str_eqb_eq in E as ->. now rewrite Hne.
    + destruct (str_eqb k0 k'); [reflexivity | exact IH].
Qed.

(** Reading back what was written. *)
Lemma get_set_same (p : list jsstring) v d : get_path p (set_path p v d) = v.
Proof.
  revert d. induction p as [|k p IH]; intros d; cbn; [reflexivity|].
  rewrite obj_get_set_same. apply IH.
Qed.

Lemma field_not_object d k :
  field d k = obj_get (match d with JObj fs => fs | _ => [] end) k.
Proof. now destruct d. Qed.

(** A write does not change what is read at a path it does not overlap. *)
Lemma get_set_apart (q : list jsstring) :
  forall p v d, overlapping p q = false ->
    get_path p (set_path q v d) = get_path p d.
Proof.
  induction q as [|b q IH]; intros p v d H.
  - destruct p; discriminate.
  - destruct p as [|a p]; [discriminate|]. cbn in H |- *.
    rewrite (field_not_object d a).
    destruct (str_eqb a b) eqn:E; cbn in H.
    + apply str_eqb_eq in E as ->. rewrite obj_get_set_same. now apply IH.
    + rewrite obj_get_set_other by (now rewrite str_eqb_sym). reflexivity.
Qed.

Lemma apply_updates_apart (us : JsObject) :
  forall p d,
    Forall (fun q => overlapping p q = false) (List.map (fun kv => field_path (fst kv)) us) ->
    get_path p (apply_updates us d) = get_path p d.
Proof.
  induction us as [|[k v] us IH]; intros p d H; [reflexivity|].
  inversion H as [|? ? Hk Hus]; subst.
  unfold apply_updates in *. cbn. rewrite IH by assumption.
  now apply get_set_apart.
Qed.

(** The keys of [updates] are the written paths. *)
Lemma updates_of_paths req now :
  List.map (fun kv => field_path (fst kv)) (updates_of req now)
  = written_paths req.
Proof.
  unfold updates_of, written_paths, assign_if_defined.
  destruct (is_defined (body_displayName req)),
           (is_defined (body_photoURL req)),
           (is_defined (body_bio req)),
           (is_defined (body_preferences req)); reflexivity.
Qed.

(** ** PUT /auth/user *)

Arguments updateUser_sem : simpl never.
Arguments db_update_sem : simpl never.
Arguments apply_updates : simpl never.

(** The handler, call by call, on a request that carries an identity. *)
Lemma put_user_run req c rt t cs u :
  req_user req = Some u ->
  snd (put_user req (mkWorld c rt t cs None))
  = let w0 := mkWorld c rt (S t) cs None in
    match (if (0 <? length (obj_keys (auth_updates_of req)))%nat
           then auth_updateUser (id_uid u) (auth_updates_of req) w0
           else (Ok tt, w0)) with
    | (Throw _, w1) => set_response update_failed_response w1
    | (Ok _, w1) =>
        match db_update users (id_uid u) (updates_of req (iso_time rt t)) w1 with
        | (Throw _, w2) => set_response update_failed_response w2
        | (Ok _, w2) =>
            match db_get users (id_uid u) w2 with
            | (Throw _, w3) => set_response update_failed_response w3
            | (Ok userDoc, w3) =>
                set_response
                  (mkResponse 200
                     (updated_body (match userDoc with
                                    | Some d => d
                                    | None => JUndefined
                                    end))) w3
            end
        end
    end.
Proof.
  intros Hu.
  unfold put_user, updates_of, auth_updates_of, body_displayName,
    body_photoURL, body_bio, body_preferences, req_user_uid.
  rewrite Hu. unfold_route.
  unfold auth_updateUser, db_update, db_get, collaborator,
    new_Date_toISOString. cbn.
  match goal with
  | |- context [length ?l] => destruct (length l)
  end; cbn.
  2:{ destruct (faults c) as [|[e|] rest]; cbn; try reflexivity;
      destruct (updateUser_sem _ _ _) as [[[]|e1] c1]; cbn; try reflexivity;
      destruct (faults c1) as [|[e2|] rest2]; cbn; try reflexivity;
      destruct (db_update_sem _ _ _ _) as [[[]|e3] c3]; cbn; try reflexivity;
      destruct (faults c3) as [|[e4|] rest4]; cbn; reflexivity. }
  destruct (faults c) as [|[e|] rest]; cbn; try reflexivity;
      destruct (db_update_sem _ _ _ _) as [[[]|e3] c3]; cbn; try reflexivity;
      destruct (faults c3) as [|[e4|] rest4]; cbn; reflexivity.
Qed.

Lemma updateUser_sem_stores uid props c :
  documents (snd (updateUser_sem uid props c)) = documents c
  /\ faults (snd (updateUser_sem uid props c)) = faults c
  /\ (forall e, fst (updateUser_sem uid props c) = Throw e ->
        principals (snd (updateUser_sem uid props c)) = principals c).
Proof.
  unfold updateUser_sem.
  repeat match goal with
         | |- context [match ?x with _ => _ end] => destruct x
         end;
    cbn; repeat split; auto; intros; discriminate.
Qed.

Lemma db_update_sem_stores coll id us c :
  principals (snd (db_update_sem coll id us c)) = principals c
  /\ faults (snd (db_update_sem coll id us c)) = faults c
  /\ (forall e, fst (db_update_sem coll id us c) = Throw e ->
        documents (snd (db_update_sem coll id us c)) = documents c)
  /\ (forall t, fst (db_update_sem coll id us c) = Ok t ->
        exists d, documents c !! (coll, id) = Some d
                  /\ documents (snd (db_update_sem coll id us c))
                     = <[(coll, id) := apply_updates us d]> (documents c))
  /\ (forall d, documents c !! (coll, id) = Some d ->
        fst (db_update_sem coll id us c) = Ok tt).
Proof.
  unfold db_update_sem.
  destruct (documents c !! (coll, id)) as [d|]; cbn; repeat split; auto;
    try (intros; discriminate).
  intros _ _. now exists d.
Qed.

(** Destructs the fault schedule, the account update and the document
    update met on the way through PUT /auth/user, recording what each
    leaves in the stores. *)
Ltac through_put_user :=
  repeat first
    [ match goal with
      | |- context [updateUser_sem ?a ?b ?c] =>
          let H := fresh "Hacc" in
          pose proof (updateUser_sem_stores a b c) as H;
          destruct (updateUser_sem a b c) as [[[]|?] ?]; cbn in H;
          destruct H as (? & ? & ?)
      | |- context [db_update_sem ?a ?b ?c ?d] =>
          let H := fresh "Hdoc" in
          pose proof (db_update_sem_stores a b c d) as H;
          destruct (db_update_sem a b c d) as [[[]|?] ?]; cbn in H;
          destruct H as (? & ? & ? & ? & ?)
      | |- context [match ?l with [] => _ | _ :: _ => _ end] =>
          destruct l as [|[?|] ?] eqn:?
      end; cbn ].

Lemma no_auth_updates req :
  body_displayName req = JUndefined -> body_photoURL req = JUndefined ->
  auth_updates_of req = [].
Proof. unfold auth_updates_of. now intros -> ->. Qed.

Lemma some_auth_updates req :
  is_defined (body_displayName req) = true
  \/ is_defined (body_photoURL req) = true ->
  exists n, length (obj_keys (auth_updates_of req)) = S n.
Proof.
  unfold auth_updates_of, assign_if_defined.
  intros [H | H]; rewrite H; cbn.
  - destruct (is_defined (body_photoURL req)); cbn; eauto.
  - destruct (is_defined (body_displayName req)); cbn; eauto.
Qed.

(** The documents after a profile update: as before, or with the updates
    applied to the document of the caller, which existed. *)
Lemma put_user_documents req c rt t cs u :
  req_user req = Some u ->
  documents (collab (snd (put_user req (mkWorld c rt t cs None))))
  = documents c
  \/ exists d,
       documents c !! (users, id_uid u) = Some d
       /\ documents (collab (snd (put_user req (mkWorld c rt t cs None))))
          = <[(users, id_uid u) := apply_updates (updates_of req (iso_time rt t)) d]>
              (documents c).
Proof.
  intros Hu. rewrite (put_user_run req c rt t cs u Hu).
  unfold auth_updateUser, db_update, db_get, collaborator. cbn.
  destruct (length (obj_keys (auth_updates_of req))); cbn;
    through_put_user; auto;
    repeat match goal with
           | H : documents _ = documents _ |- _ => rewrite H in *
           | H : forall t, Ok () = Ok t -> _ |- _ => specialize (H tt eq_refl)
           | H : forall e, Throw ?x = Throw e -> _ |- _ =>
               specialize (H x eq_refl)
           | H : exists d, _ |- _ => destruct H as (? & ? & ?)
           end; eauto.
Qed.

(** Without a display name or photo URL in the body no account is
    touched. *)
Lemma put_user_no_principal_change req c rt t cs u :
  req_user req = Some u ->
  auth_updates_of req = [] ->
  principals (collab (snd (put_user req (mkWorld c rt t cs None))))
  = principals c
  /\ exists new,
       calls (snd (put_user req (mkWorld c rt t cs None))) = cs ++ new
       /\ existsb principal_call new = false.
Proof.
  intros Hu Hno. rewrite (put_user_run req c rt t cs u Hu), Hno.
  unfold db_update, db_get, collaborator. cbn.
  through_put_user;
    (split;
     [ congruence
     | eexists; split; [rewrite <- ?app_assoc; reflexivity | reflexivity] ]).
Qed.

(** With one of them, the account update is the first call. *)
Lemma put_user_updates_principal req c rt t cs u n :
  req_user req = Some u ->
  length (obj_keys (auth_updates_of req)) = S n ->
  exists rest,
    calls (snd (put_user req (mkWorld c rt t cs None)))
    = cs ++ CallUpdateUser (id_uid u) (auth_updates_of req) :: rest.
Proof.
  intros Hu Hn. rewrite (put_user_run req c rt t cs u Hu), Hn.
  unfold auth_updateUser, db_update, db_get, collaborator. cbn.
  through_put_user;
    eexists; rewrite <- ?app_assoc; cbn; reflexivity.
Qed.

(** When no fault is scheduled and the document exists, an update without
    display name and photo URL succeeds. *)
Lemma put_user_succeeds req c rt t cs u d :
  req_user req = Some u ->
  auth_updates_of req = [] ->
  faults c = [] ->
  documents c !! (users, id_uid u) = Some d ->
  snd (put_user req (mkWorld c rt t cs None))
  = mkWorld
      (set_documents
         (<[(users, id_uid u) := apply_updates (updates_of req (iso_time rt t)) d]>
            (documents c)) c)
      rt (S t)
      (cs ++ [CallDocUpdate users (id_uid u) (updates_of req (iso_time rt t));
              CallDocGet users (id_uid u)])
      (Some (mkResponse 200
               (updated_body (apply_updates (updates_of req (iso_time rt t)) d)))).
Proof.
  intros Hu Hno Hf Hd. rewrite (put_user_run req c rt t cs u Hu), Hno.
  unfold db_update, db_get, collaborator. cbn. rewrite Hf.
  unfold db_update_sem. rewrite Hd. cbn. rewrite Hf. cbn.
  rewrite lookup_insert_eq. unfold set_response, set_collab, log_call. cbn.
  rewrite <- app_assoc. reflexivity.
Qed.

Lemma only_bio_updates req now :
  body_displayName req = JUndefined -> body_photoURL req = JUndefined ->
  body_preferences req = JUndefined -> is_defined (body_bio req) = true ->
  updates_of req now
  = [(js "lastUpdatedAt", JStr now); (js "profile.bio", body_bio req)].
Proof.
  unfold updates_of, assign_if_defined. intros -> -> -> ->. reflexivity.
Qed.

Lemma no_field_updates req now :
  body_displayName req = JUndefined -> body_photoURL req = JUndefined ->
  body_bio req = JUndefined -> body_preferences req = JUndefined ->
  updates_of req now = [(js "lastUpdatedAt", JStr now)].
Proof. unfold updates_of, assign_if_defined. now intros -> -> -> ->. Qed.

(** C5. PUT /auth/user on a request that carries an identity, in a world
    where nothing has been sent yet.  (a) No document but the caller's is
    touched.  (b) In the caller's document every field path that overlaps
    neither [lastUpdatedAt] nor the path of a supplied field
    ([displayName], [photoURL], [profile.bio], [profile.preferences])
    reads as before, and the document is not created when it was missing.
    (c) When neither [displayName] nor [photoURL] is supplied no account
    is touched and no account call is made; when one is, the account
    update is the first call.  (d) A body with only [bio], when the
    document exists and no call is failed: 200, [profile.bio] reads the
    supplied value, [displayName] and [photoURL] read as before.  (e) A
    body with none of the four fields, under the same conditions: 200, the
    document becomes the old one with [lastUpdatedAt] set, nothing else
    changes. *)
Theorem profile_update_frame (req : Request) (w : World) (u : Identity) :
  req_user req = Some u ->
  response w = None ->
  (forall key,
     key <> (users, id_uid u) ->
     documents (collab (snd (put_user req w))) !! key
     = documents (collab w) !! key)
  /\ (forall p,
        untouched req p ->
        get_path p <$> (documents (collab (snd (put_user req w)))
                          !! (users, id_uid u))
        = get_path p <$> (documents (collab w) !! (users, id_uid u)))
  /\ (body_displayName req = JUndefined ->
      body_photoURL req = JUndefined ->
      principals (collab (snd (put_user req w))) = principals (collab w)
      /\ exists new,
           calls (snd (put_user req w)) = calls w ++ new
           /\ existsb principal_call new = false)
  /\ (is_defined (body_displayName req) = true
      \/ is_defined (body_photoURL req) = true ->
      exists rest,
        calls (snd (put_user req w))
        = calls w ++ CallUpdateUser (id_uid u) (auth_updates_of req) :: rest)
  /\ (forall d,
        is_defined (body_bio req) = true ->
        body_displayName req = JUndefined ->
        body_photoURL req = JUndefined ->
        body_preferences req = JUndefined ->
        faults (collab w) = [] ->
        documents (collab w) !! (users, id_uid u) = Some d ->
        exists d',
          response (snd (put_user req w))
          = Some (mkResponse 200 (updated_body d'))
          /\ documents (collab (snd (put_user req w))) !! (users, id_uid u)
             = Some d'
          /\ get_path [js "profile"; js "bio"] d' = body_bio req
          /\ get_path [js "displayName"] d' = get_path [js "displayName"] d
          /\ get_path [js "photoURL"] d' = get_path [js "photoURL"] d)
  /\ (forall d,
        body_displayName req = JUndefined ->
        body_photoURL req = JUndefined ->
        body_bio req = JUndefined ->
        body_preferences req = JUndefined ->
        faults (collab w) = [] ->
        documents (collab w) !! (users, id_uid u) = Some d ->
        response (snd (put_user req w))
        = Some (mkResponse 200
                  (updated_body
                     (set_path [js "lastUpdatedAt"]
                        (JStr (iso_time (runtime w) (ticks w))) d)))
        /\ documents (collab (snd (put_user req w)))
           = <[(users, id_uid u)
               := set_path [js "lastUpdatedAt"] (JStr (iso_time (runtime w) (ticks w))) d]>
               (documents (collab w))
        /\ principals (collab (snd (put_user req w))) = principals (collab w)
        /\ calls (snd (put_user req w))
           = calls w
             ++ [CallDocUpdate users (id_uid u)
                   [(js "lastUpdatedAt", JStr (iso_time (runtime w) (ticks w)))];
                 CallDocGet users (id_uid u)]
        /\ forall p,
             overlapping p [js "lastUpdatedAt"] = false ->
             get_path p (set_path [js "lastUpdatedAt"]
                           (JStr (iso_time (runtime w) (ticks w))) d)
             = get_path p d).
Proof.
  intros Hu Hresp. destruct w as [c rt t cs r]. cbn in Hresp. subst r. cbn.
  pose proof (put_user_documents req c rt t cs u Hu) as Hdocs.
  split; [| split; [| split; [| split; [| split]]]].
  - intros key Hkey. destruct Hdocs as [-> | (d & _ & ->)]; [reflexivity|].
    now apply lookup_insert_ne.
  - intros p Hp. destruct Hdocs as [-> | (d & Hd & ->)]; [reflexivity|].
    rewrite lookup_insert_eq, Hd. cbn. f_equal.
    apply apply_updates_apart. now rewrite updates_of_paths.
  - intros Hdn Hph.
    apply (put_user_no_principal_change req c rt t cs u Hu).
    now apply no_auth_updates.
  - intros Hsup. destruct (some_auth_updates req Hsup) as (n & Hn).
    exact (put_user_updates_principal req c rt t cs u n Hu Hn).
  - intros d Hbio Hdn Hph Hpr Hf Hd.
    rewrite (put_user_succeeds req c rt t cs u d Hu
               (no_auth_updates req Hdn Hph) Hf Hd).
    exists (apply_updates (updates_of req (iso_time rt t)) d). cbn.
    split; [reflexivity|]. split; [apply lookup_insert_eq|].
    split; [| split].
    + rewrite (only_bio_updates req (iso_time rt t) Hdn Hph Hpr Hbio).
      unfold apply_updates. cbn [fold_left fst snd].
      change (field_path (js "profile.bio")) with [js "profile"; js "bio"].
      exact (get_set_same [js "profile"; js "bio"] _ _).
    + apply (apply_updates_apart _ [js "displayName"]).
      rewrite updates_of_paths. unfold written_paths.
      rewrite Hdn, Hph, Hpr, Hbio. repeat constructor.
    + apply (apply_updates_apart _ [js "photoURL"]).
      rewrite updates_of_paths. unfold written_paths.
      rewrite Hdn, Hph, Hpr, Hbio. repeat constructor.
  - intros d Hdn Hph Hbio Hpr Hf Hd.
    rewrite (put_user_succeeds req c rt t cs u d Hu
               (no_auth_updates req Hdn Hph) Hf Hd).
    rewrite (no_field_updates req (iso_time rt t) Hdn Hph Hbio Hpr). cbn.
    change (apply_updates [(js "lastUpdatedAt", JStr (iso_time rt t))] d)
      with (set_path [js "lastUpdatedAt"] (JStr (iso_time rt t)) d).
    repeat split; auto.
    intros p Hp.
    exact (get_set_apart [js "lastUpdatedAt"] p (JStr (iso_time rt t)) d Hp).
Qed.

Lemma profile_update_frame_witness :
  req_user bio_request = Some demo_identity
  /\ req_user empty_update_request = Some demo_identity
  /\ response demo_world = None
  /\ (exists d',
        response (snd (put_user bio_request demo_world))
        = Some (mkResponse 200 (updated_body d'))
        /\ documents (collab (snd (put_user bio_request demo_world)))
             !! (users, js "u1") = Some d'
        /\ get_path [js "profile"; js "bio"] d' = JStr (js "x")
        /\ get_path [js "displayName"] d' = JStr (js "Ann")
        /\ get_path [js "photoURL"] d' = JNull)
  /\ response (snd (put_user empty_update_request demo_world))
     = Some (mkResponse 200
               (updated_body
                  (set_path [js "lastUpdatedAt"] (JStr (demo_clock 0))
                     demo_profile))).
Proof.
  split; [reflexivity|]. split; [reflexivity|]. split; [reflexivity|]. split.
  - destruct (proj1 (proj2 (proj2 (proj2 (proj2
                (profile_update_frame bio_request demo_world demo_identity
                   eq_refl eq_refl))))) demo_profile)
      as (d' & Hr & Hd & Hbio & Hdn & Hph);
      try reflexivity.
    exists d'. repeat split; assumption.
  - apply (proj2 (proj2 (proj2 (proj2 (proj2
             (profile_update_frame empty_update_request demo_world
                demo_identity eq_refl eq_refl))))) demo_profile);
      reflexivity.
Defined.

(** ** Failure envelopes *)

Section Preservation.
Variable I : World -> Prop.

Lemma preserves_ret {A} (a : A) : preserves I (ret a).
Proof. intros w Hw. exact Hw. Qed.

Lemma preserves_throw {A} (e : JsError) : preserves I (@throw A e).
Proof. intros w Hw. exact Hw. Qed.

Lemma preserves_bind {A B} (m : M A) (k : A -> M B) :
  preserves I m -> (forall a, preserves I (k a)) -> preserves I (bind m k).
Proof.
  intros Hm Hk w Hw. unfold bind. specialize (Hm w Hw).
  destruct (m w) as [[a|e] w1]; cbn in *; [now apply Hk | exact Hm].
Qed.

Lemma preserves_try_catch {A} (m : M A) (h : JsError -> M A) :
  preserves I m -> (forall e, preserves I (h e)) ->
  preserves I (try_catch m h).
Proof.
  intros Hm Hh w Hw. unfold try_catch. specialize (Hm w Hw).
  destruct (m w) as [[a|e] w1]; cbn in *; [exact Hm | now apply Hh].
Qed.

Lemma preserves_async_call (m : M unit) :
  preserves I m -> preserves I (async_call m).
Proof.
  intros Hm w Hw. unfold async_call. specialize (Hm w Hw).
  destruct (m w) as [[a|e] w1]; exact Hm.
Qed.
End Preservation.

Lemma well_answered_collaborator {A} k (sem : Collab -> Result A * Collab) :
  preserves well_answered (collaborator k sem).
Proof.
  intros w Hw r Hr.
  destruct (collaborator_frame k sem w) as (Hresp & _).
  rewrite Hresp in Hr. now apply Hw.
Qed.

Lemma well_answered_clock : preserves well_answered new_Date_toISOString.
Proof. intros w Hw. exact Hw. Qed.

Lemma well_answered_less_than v n : preserves well_answered (less_than v n).
Proof. intros w Hw. exact Hw. Qed.

Lemma well_answered_send st b :
  st < 400 \/ full_envelope (mkResponse st b) ->
  preserves well_answered (send st b).
Proof.
  intros Hb w Hw. unfold send.
  destruct (response w) eqn:E; [exact Hw|].
  intros r Hr. cbn in Hr. injection Hr as <-. exact Hb.
Qed.

Lemma error_body_envelope (st : Z) (e m : string) :
  In st [400; 401; 404; 409; 500] ->
  st < 400 \/ full_envelope (mkResponse st (error_body e m)).
Proof.
  intros Hst. right. repeat split; [now exists (js e) | now exists (js m) | exact Hst].
Qed.

Lemma well_answered_uid req : preserves well_answered (req_user_uid req).
Proof. unfold req_user_uid. destruct (req_user req); intros w Hw; exact Hw. Qed.

(** Applies the preservation rules down the structure of a handler. *)
Ltac keep_answering :=
  repeat first
    [ apply preserves_try_catch; [| intros ?]
    | apply preserves_bind; [| intros ?]
    | apply preserves_async_call
    | apply well_answered_collaborator
    | apply well_answered_clock
    | apply well_answered_less_than
    | apply well_answered_uid
    | apply preserves_ret
    | apply preserves_throw
    | apply well_answered_send;
        first [ apply error_body_envelope; cbn; tauto
              | left; reflexivity
              | right; repeat split;
                  [eexists; reflexivity | eexists; reflexivity | cbn; tauto] ]
    | match goal with
      | |- preserves _ (if ?b then _ else _) => destruct b
      | |- preserves _ (match ?x with _ => _ end) => destruct x
      end ].

Lemma well_answered_register req : preserves well_answered (post_register req).
Proof. unfold post_register, auth_createUser, db_set. keep_answering. Qed.

Lemma well_answered_verify_token req :
  preserves well_answered (post_verify_token req).
Proof. unfold post_verify_token, auth_verifyIdToken. keep_answering. Qed.

Lemma well_answered_get_user req : preserves well_answered (get_user req).
Proof. unfold get_user, db_get. keep_answering. Qed.

Lemma well_answered_put_user req : preserves well_answered (put_user req).
Proof.
  unfold put_user, auth_updateUser, db_update, db_get. keep_answering.
Qed.

Lemma well_answered_delete_user req : preserves well_answered (delete_user req).
Proof. unfold delete_user, db_delete, auth_deleteUser. keep_answering. Qed.

Lemma well_answered_gate req next :
  (forall req', preserves well_answered (next req')) ->
  preserves well_answered (verifyToken req next).
Proof.
  intros Hn.
  unfold verifyToken, auth_verifyIdToken, express_next, method_startsWith,
    method_split_at.
  keep_answering. apply Hn.
Qed.

Lemma async_route_world (h : M unit) (w : World) :
  snd (async_route h w) = snd (async_call h w).
Proof.
  unfold async_route, try_catch, async_call.
  destruct (h w) as [[[]|e] w1]; reflexivity.
Qed.

Lemma account_routes_well_answered ep req c rt :
  account_route ep = true -> well_answered (serve ep req c rt).
Proof.
  intros Hep. unfold serve.
  assert (H0 : well_answered (incoming c rt)) by (intros r Hr; discriminate).
  destruct ep; try discriminate; unfold route; rewrite async_route_world;
    apply preserves_async_call; auto.
  - apply well_answered_register.
  - apply well_answered_gate, well_answered_get_user.
  - apply well_answered_gate, well_answered_put_user.
  - apply well_answered_gate, well_answered_delete_user.
  - apply well_answered_verify_token.
Qed.

(** The two failures of POST /palindrome; the other routes of
    [src/index.js] do not fail. *)
Lemma index_routes_answers ep req c rt r :
  account_route ep = false ->
  response (serve ep req c rt) = Some r ->
  status r = 200
  \/ r = mkResponse 400 provide_a_word_body
  \/ r = mkResponse 500 something_went_wrong_body.
Proof.
  intros Hep. destruct ep; try discriminate; unfold serve, route; unfold_route;
    unfold get_root, get_hello, post_palindrome, get_palindrome_word; cbn.
  - intros Hr; injection Hr as <-; auto.
  - intros Hr; injection Hr as <-; auto.
  - destruct (obj_get (req_body req) (js "word")) as [| |[]|n|[|x s]| |];
      cbn; try (intros Hr; injection Hr as <-; auto).
    destruct (n =? 0); cbn; intros Hr; injection Hr as <-; auto.
  - intros Hr; injection Hr as <-; auto.
Qed.

(** C7, as the claim states it, fails: the 400 of POST /palindrome (here
    for an empty body) and the 500 of the global error handler (here for
    [{word: 5}], whose [split] is not a function) carry an [error] and no
    [message]. *)
Lemma palindrome_failures_have_no_message :
  response (serve POST_palindrome (inbound JUndefined [] [])
              demo_collab demo_runtime)
  = Some (mkResponse 400 provide_a_word_body)
  /\ ~ has_string provide_a_word_body "message"
  /\ response (serve POST_palindrome
                 (inbound JUndefined [(js "word", JNum 5)] [])
                 demo_collab demo_runtime)
     = Some (mkResponse 500 something_went_wrong_body)
  /\ ~ has_string something_went_wrong_body "message".
Proof.
  split; [reflexivity|]. split; [intros [s Hs]; discriminate|].
  split; [reflexivity|]. intros [s Hs]; discriminate.
Qed.

(** C7, as the code has it. Every failure response (status 400 and up) is
    a JSON object with an [error] string, and its status is one of 400,
    401, 404, 409 and 500; on the account routes and the gate it also has
    a [message] string; the 400 of POST /palindrome and the 500 of the
    global error handler have no [message]. *)
Theorem failure_envelopes (ep : Endpoint) (req : Request) (c : Collab)
    (rt : Runtime) (r : Response) :
  response (serve ep req c rt) = Some r ->
  is_failure r ->
  has_string (body r) "error"
  /\ In (status r) [400; 401; 404; 409; 500]
  /\ (account_route ep = true -> has_string (body r) "message")
  /\ (account_route ep = false -> has_field (body r) (js "message") = false).
Proof.
  intros Hr Hf. unfold is_failure in Hf.
  destruct (account_route ep) eqn:Hep.
  - destruct (account_routes_well_answered ep req c rt Hep r Hr)
      as [Hlow | (He & Hm & Hs)]; [lia|].
    repeat split; auto. discriminate.
  - destruct (index_routes_answers ep req c rt r Hep Hr)
      as [H200 | [-> | ->]]; [lia | |];
      (split; [eexists; reflexivity|]);
      (split; [cbn; tauto|]);
      (split; [discriminate | reflexivity]).
Qed.

Lemma failure_envelopes_witness :
  response (serve GET_auth_user (inbound JUndefined [] [])
              demo_collab demo_runtime)
  = Some no_token_response
  /\ is_failure no_token_response
  /\ has_string (body no_token_response) "error"
  /\ In (status no_token_response) [400; 401; 404; 409; 500]
  /\ (account_route GET_auth_user = true ->
      has_string (body no_token_response) "message")
  /\ (account_route GET_auth_user = false ->
      has_field (body no_token_response) (js "message") = false).
Proof.
  split; [reflexivity|].
  split; [unfold is_failure; cbn; lia|].
  apply (failure_envelopes GET_auth_user (inbound JUndefined [] [])
           demo_collab demo_runtime no_token_response);
    [reflexivity | unfold is_failure; cbn; lia].
Defined.

(** ** The routes end to end *)

(** PUT /auth/user with a valid credential and [{bio: "x"}]: the gate
    passes the request on, the document gets the new [profile.bio] and the
    timestamp, and the answer is 200 with the document read back. *)
Example put_bio_through_the_gate :
  response (serve PUT_auth_user
              (inbound (JStr (js "Bearer good")) [(js "bio", JStr (js "x"))] [])
              profiled_collab demo_runtime)
  = Some (mkResponse 200
            (updated_body
               (JObj [(js "uid", JStr (js "u1"));
                      (js "displayName", JStr (js "Ann"));
                      (js "photoURL", JNull);
                      (js "profile",
                       JObj [(js "bio", JStr (js "x"));
                             (js "preferences", JObj [])]);
                      (js "lastUpdatedAt", JStr (demo_clock 0))])))
  /\ calls (serve PUT_auth_user
              (inbound (JStr (js "Bearer good")) [(js "bio", JStr (js "x"))] [])
              profiled_collab demo_runtime)
     = [CallVerifyIdToken (JStr (js "good"));
        CallDocUpdate users (js "u1")
          [(js "lastUpdatedAt", JStr (demo_clock 0));
           (js "profile.bio", JStr (js "x"))];
        CallDocGet users (js "u1")].
Proof. split; vm_compute; reflexivity. Qed.

(** The same request without a credential stops at the gate. *)
Example put_bio_without_credential :
  serve PUT_auth_user (inbound JUndefined [(js "bio", JStr (js "x"))] [])
        profiled_collab demo_runtime
  = mkWorld profiled_collab demo_runtime 0 [] (Some no_token_response).
Proof. reflexivity. Qed.

(** * Further properties of the code *)

(** ** The token of a credential header *)

Lemma startsWith_app (p t : jsstring) : startsWith (p ++ t) p = true.
Proof.
  induction p as [|a p IH]; [now destruct t|].
  cbn. now rewrite N.eqb_refl.
Qed.

Lemma startsWith_split (s p : jsstring) :
  startsWith s p = true -> exists t, s = p ++ t.
Proof.
  revert s. induction p as [|a p IH]; intros s H.
  - now exists s.
  - destruct s as [|b s]; [discriminate|]. cbn in H.
    apply andb_true_iff in H as [Hab Hs]. apply N.eqb_eq in Hab as ->.
    destruct (IH s Hs) as (t & ->). now exists t.
Qed.

Lemma startsWith_longer (s p rest : jsstring) :
  startsWith s p = true -> startsWith (s ++ rest) p = true.
Proof.
  intros H. destruct (startsWith_split s p H) as (t & ->).
  rewrite <- List.app_assoc. apply startsWith_app.
Qed.

(** While the separator is being skipped nothing is collected. *)
Lemma split_go_skip (sep a r cur : jsstring) :
  split_go sep (a ++ r) (length a) cur = split_go sep r 0 cur.
Proof.
  induction a as [|x a IH]; [reflexivity|]. exact IH.
Qed.

(** At an occurrence of the separator the piece ends. *)
Lemma split_go_match (sep r cur : jsstring) :
  sep <> [] ->
  split_go sep (sep ++ r) 0 cur = rev cur :: split_go sep r 0 [].
Proof.
  intros Hne. destruct sep as [|c sep']; [congruence|].
  change ((c :: sep') ++ r) with (c :: (sep' ++ r)).
  cbn [split_go].
  change (c :: sep' ++ r) with ((c :: sep') ++ r).
  rewrite startsWith_app. f_equal.
  replace (length (c :: sep') - 1)%nat with (length sep') by (cbn; lia).
  apply split_go_skip.
Qed.

(** The first piece: it is a prefix of the string, no occurrence of the
    separator starts within it, and what follows it is nothing or an
    occurrence of the separator. *)
Lemma first_piece (sep : jsstring) :
  sep <> [] ->
  forall t cur,
    exists p rest ps,
      split_go sep t 0 cur = (rev cur ++ p) :: ps
      /\ t = p ++ rest
      /\ (rest = [] \/ startsWith rest sep = true)
      /\ forall i, (i < length p)%nat -> startsWith (skipn i t) sep = false.
Proof.
  intros Hne. induction t as [|c t IH]; intros cur.
  - exists [], [], []. cbn. rewrite List.app_nil_r.
    repeat split; auto. intros i Hi; lia.
  - destruct (startsWith (c :: t) sep) eqn:Hm.
    + exists [], (c :: t). cbn [split_go]. rewrite Hm. eexists.
      rewrite List.app_nil_r. repeat split; auto. intros i Hi; cbn in Hi; lia.
    + destruct (IH (c :: cur)) as (p & rest & ps & Hs & Ht & Hr & Hno).
      exists (c :: p), rest, ps. cbn [split_go]. rewrite Hm, Hs.
      cbn [rev]. rewrite <- List.app_assoc. cbn.
      split; [reflexivity|]. split; [now rewrite Ht|]. split; [exact Hr|].
      intros [|i] Hi; [exact Hm|]. cbn. apply Hno. cbn in Hi. lia.
Qed.

Lemma contains_after (p rest sep : jsstring) :
  startsWith rest sep = true -> contains (p ++ rest) sep = true.
Proof.
  intros H. induction p as [|c p IH]; cbn [app contains].
  - destruct rest; cbn [contains]; [exact H | now rewrite H].
  - rewrite IH. apply orb_true_r.
Qed.

Lemma contains_position (p sep : jsstring) :
  sep <> [] -> contains p sep = true ->
  exists i, (i < length p)%nat /\ startsWith (skipn i p) sep = true.
Proof.
  intros Hne. induction p as [|c p IH]; cbn [contains length]; intros H.
  - destruct sep; [congruence | discriminate].
  - apply orb_true_iff in H as [H | H].
    + exists 0%nat. split; [lia | exact H].
    + destruct (IH H) as (i & Hi & Hs). exists (S i). split; [lia | exact Hs].
Qed.

Lemma split_nonempty (s sep : jsstring) :
  sep <> [] -> split s sep = split_go sep s 0 [].
Proof. destruct sep; [congruence | reflexivity]. Qed.

Lemma split_at_bearer (t : jsstring) :
  split_at (Bearer ++ t) Bearer 1
  = match split_go Bearer t 0 [] with
    | piece :: _ => JStr piece
    | [] => JUndefined
    end.
Proof.
  unfold split_at. rewrite split_nonempty by discriminate.
  rewrite split_go_match by discriminate. cbn [nth_error].
  now destruct (split_go Bearer t 0 []).
Qed.

(** X1. The token the gates take from a header that starts with
    [Bearer ] is the text after the marker up to the next occurrence of
    the marker: the header is the marker, the token, and then nothing or
    another marker; the token itself holds no marker; and it is the whole
    remainder of the header when that remainder holds no marker (the empty
    string for the bare marker).  The mandatory gate hands exactly this
    token to the verification call. *)
Theorem bearer_token_extraction (s : jsstring) :
  startsWith s Bearer = true ->
  exists tok rest,
    split_at s Bearer 1 = JStr tok
    /\ s = Bearer ++ tok ++ rest
    /\ (rest = [] \/ startsWith rest Bearer = true)
    /\ contains tok Bearer = false
    /\ (forall t, s = Bearer ++ t -> contains t Bearer = false -> tok = t)
    /\ (forall req c rt next e,
          req_authorization req = JStr s ->
          outcome (auth_verifyIdToken (JStr tok)) (incoming c rt) = Throw e ->
          calls (run (verifyToken req next) c rt)
          = [CallVerifyIdToken (JStr tok)]).
Proof.
  intros Hp. destruct (startsWith_split s Bearer Hp) as (t & ->).
  destruct (first_piece Bearer ltac:(discriminate) t [])
    as (p & rest & ps & Hs & Ht & Hr & Hno).
  cbn [rev app] in Hs.
  assert (Htok : split_at (Bearer ++ t) Bearer 1 = JStr p)
    by (now rewrite split_at_bearer, Hs).
  exists p, rest. split; [exact Htok|]. split; [now rewrite Ht|].
  split; [exact Hr|]. split; [| split].
  - destruct (contains p Bearer) eqn:Hc; [|reflexivity].
    destruct (contains_position p Bearer ltac:(discriminate) Hc)
      as (i & Hi & Hm).
    specialize (Hno i Hi).
    rewrite Ht, List.skipn_app in Hno.
    rewrite (startsWith_longer _ _ _ Hm) in Hno. discriminate.
  - intros t' Ht' Hc. apply List.app_inv_head in Ht'. subst t'.
    destruct Hr as [-> | Hr].
    + now rewrite Ht, List.app_nil_r.
    + rewrite Ht, (contains_after p rest Bearer Hr) in Hc. discriminate.
  - intros req c rt next e Hreq He.
    rewrite <- Htok in He |- *.
    now destruct (gate_verification_fails req c rt next (Bearer ++ t) e
                    Hreq Hp He) as (_ & Hc & _).
Qed.

Lemma bearer_token_extraction_witness :
  startsWith (js "Bearer abcBearer def") Bearer = true
  /\ split_at (js "Bearer abcBearer def") Bearer 1 = JStr (js "abc")
  /\ split_at (js "Bearer ") Bearer 1 = JStr [].
Proof.
  split; [reflexivity|].
  destruct (bearer_token_extraction (js "Bearer abcBearer def") eq_refl)
    as (tok & rest & Htok & _).
  split; [| reflexivity]. rewrite Htok. vm_compute in Htok.
  injection Htok as <-. reflexivity.
Defined.

(** ** The optional gate *)

Lemma optional_no_bearer req c rt next :
  no_bearer (req_authorization req) ->
  run (optionalAuth req next) c rt
  = snd (express_next next req (incoming c rt)).
Proof.
  intros [Hf | (s & Hs & Hp)]; unfold run, optionalAuth; unfold_route.
  - rewrite Hf. cbn. now destruct (next req (incoming c rt)) as [[[]|?] ?].
  - rewrite Hs. destruct s as [|x s];
      [cbn; now destruct (next _ (incoming c rt)) as [[[]|?] ?]|].
    cbn [truthy method_startsWith]. rewrite Hp. cbn.
    now destruct (next req (incoming c rt)) as [[[]|?] ?].
Qed.

Lemma optional_not_a_string req c rt next :
  truthy (req_authorization req) = true ->
  (forall s, req_authorization req <> JStr s) ->
  run (optionalAuth req next) c rt
  = snd (express_next next req (incoming c rt)).
Proof.
  intros Ht Hs. unfold run, optionalAuth; unfold_route. rewrite Ht.
  destruct (req_authorization req); try (now destruct (Hs s));
    cbn; now destruct (next req (incoming c rt)) as [[[]|?] ?].
Qed.

Lemma optional_bearer req c rt next s :
  req_authorization req = JStr s ->
  startsWith s (js "Bearer ") = true ->
  run (optionalAuth req next) c rt
  = match auth_verifyIdToken (split_at s (js "Bearer ") 1) (incoming c rt) with
    | (Ok d, w1) => snd (express_next next (with_user req (identity_of d)) w1)
    | (Throw _, w1) => snd (express_next next req w1)
    end.
Proof.
  intros Hs Hp. unfold run, optionalAuth; unfold_route. rewrite Hs.
  assert (Ht : truthy (JStr s) = true)
    by (destruct s; [discriminate | reflexivity]).
  rewrite Ht. cbn [method_startsWith method_split_at]. rewrite Hp.
  unfold auth_verifyIdToken, collaborator; cbn.
  by_fault c; cbn;
    try (destruct (verifier c (split_at s (js "Bearer ") 1)); cbn);
    rewrite <- ?Hs;
    match goal with
    | |- context [next ?r ?w] => destruct (next r w) as [[[]|?] ?]; reflexivity
    end.
Qed.

Lemma gate_admits_no_bearer req c rt :
  no_bearer (req_authorization req) -> gate_admits req c rt = None.
Proof.
  unfold gate_admits. intros [Hf | (s & -> & ->)]; [|reflexivity].
  destruct (req_authorization req) as [| | | |[|x s]| |]; try reflexivity.
  discriminate.
Qed.

Lemma gate_admits_not_a_string req c rt :
  (forall s, req_authorization req <> JStr s) -> gate_admits req c rt = None.
Proof.
  unfold gate_admits. intros H.
  destruct (req_authorization req); try reflexivity. now destruct (H s).
Qed.

(** X2. The optional gate never answers and never stops a request: on
    every request it runs the next handler exactly once, in a world where
    nothing has been sent, no call has been made for a handler and the
    stores are as they were; the request it passes on carries the identity
    that the mandatory gate would resolve when there is one, and is the
    request as it came otherwise (no header, another scheme, a token that
    does not verify, a header that is not a string). *)
Theorem optional_gate_always_proceeds (req : Request) (c : Collab)
    (rt : Runtime) (next : Request -> M unit) :
  exists req' w1,
    run (optionalAuth req next) c rt = snd (express_next next req' w1)
    /\ response w1 = None
    /\ existsb handler_call (calls w1) = false
    /\ principals (collab w1) = principals c
    /\ documents (collab w1) = documents c
    /\ (forall u, gate_admits req c rt = Some u -> req' = with_user req u)
    /\ (gate_admits req c rt = None -> req' = req).
Proof.
  destruct (header_kinds (req_authorization req))
    as [Hnb | [(s & Hs & Hp) | (Ht & Hns)]].
  - exists req, (incoming c rt).
    rewrite (optional_no_bearer req c rt next Hnb).
    rewrite (gate_admits_no_bearer req c rt Hnb).
    repeat split; auto. discriminate.
  - pose proof (verifyIdToken_world (split_at s (js "Bearer ") 1) c rt)
      as (Hr & Hc & _ & _ & Hps & Hds).
    cbv zeta in Hr, Hc, Hps, Hds.
    rewrite (optional_bearer req c rt next s Hs Hp).
    unfold gate_admits. rewrite Hs, Hp. unfold outcome.
    destruct (auth_verifyIdToken (split_at s (js "Bearer ") 1) (incoming c rt))
      as [[d|e] w1]; cbn [fst snd] in *.
    + exists (with_user req (identity_of d)), w1. rewrite Hc.
      repeat split; auto; [intros u Hu; now injection Hu as <- | discriminate].
    + exists req, w1. rewrite Hc. repeat split; auto. discriminate.
  - exists req, (incoming c rt).
    rewrite (optional_not_a_string req c rt next Ht Hns).
    rewrite (gate_admits_not_a_string req c rt Hns).
    repeat split; auto. discriminate.
Qed.

(** X3. On a request that the mandatory gate admits the two gates do the
    same: the same call, the same identity attached, the same handler
    run. *)
Theorem gates_agree_on_admitted (req : Request) (c : Collab) (rt : Runtime)
    (next : Request -> M unit) (u : Identity) :
  gate_admits req c rt = Some u ->
  run (optionalAuth req next) c rt = run (verifyToken req next) c rt.
Proof.
  intros Hu.
  destruct (gate_admits_some req c rt u Hu) as (s & d & Hs & Hp & Ho & ->).
  rewrite (gate_verification_succeeds req c rt next s d Hs Hp Ho).
  rewrite (optional_bearer req c rt next s Hs Hp).
  rewrite (outcome_split (auth_verifyIdToken _)), Ho. reflexivity.
Qed.

Lemma gates_agree_on_admitted_witness :
  gate_admits (inbound (JStr (js "Bearer good")) [] []) profiled_collab
              demo_runtime = Some demo_identity
  /\ run (optionalAuth (inbound (JStr (js "Bearer good")) [] []) get_user)
         profiled_collab demo_runtime
     = run (verifyToken (inbound (JStr (js "Bearer good")) [] []) get_user)
           profiled_collab demo_runtime.
Proof.
  split; [reflexivity|].
  exact (gates_agree_on_admitted (inbound (JStr (js "Bearer good")) [] [])
           profiled_collab demo_runtime get_user demo_identity eq_refl).
Defined.

(** ** GET /auth/user *)

(** X4. GET /auth/user on a request that carries an identity, in a world
    where nothing has been sent: it makes one call, the read of the
    caller's document, and changes neither accounts nor documents; it
    answers 500 [Failed to get user] when the read fails, 404 [User not
    found] when there is no document, and otherwise 200 with the document
    as it is stored. *)
Theorem profile_read (req : Request) (w : World) (u : Identity) :
  req_user req = Some u ->
  response w = None ->
  calls (snd (get_user req w)) = calls w ++ [CallDocGet users (id_uid u)]
  /\ principals (collab (snd (get_user req w))) = principals (collab w)
  /\ documents (collab (snd (get_user req w))) = documents (collab w)
  /\ (forall e,
        outcome (db_get users (id_uid u)) w = Throw e ->
        response (snd (get_user req w)) = Some get_failed_response)
  /\ (forall o,
        outcome (db_get users (id_uid u)) w = Ok o ->
        response (snd (get_user req w))
        = Some (match documents (collab w) !! (users, id_uid u) with
                | Some d => mkResponse 200 (JObj [(js "user", d)])
                | None => not_found_response
                end)).
Proof.
  intros Hu Hr. destruct w as [c rt t cs r]. cbn in Hr. subst r.
  unfold get_user, req_user_uid, outcome, db_get, collaborator.
  rewrite Hu. unfold_route. cbn.
  destruct (faults c) as [|[e0|] rest]; cbn;
    try (destruct (documents c !! (users, id_uid u)); cbn);
    repeat split; intros; try discriminate; reflexivity.
Qed.

Lemma profile_read_witness :
  req_user empty_update_request = Some demo_identity
  /\ response demo_world = None
  /\ response (snd (get_user empty_update_request demo_world))
     = Some (mkResponse 200 (JObj [(js "user", demo_profile)])).
Proof.
  split; [reflexivity|]. split; [reflexivity|].
  exact (proj2 (proj2 (proj2 (proj2
           (profile_read empty_update_request demo_world demo_identity
              eq_refl eq_refl))))
           (Some demo_profile) eq_refl).
Defined.

(** ** DELETE /auth/user *)

(** X5. DELETE /auth/user on a request that carries an identity: the
    document is deleted first and the account second, and nothing is
    undone.  When the deletion of the document fails: 500, one call,
    nothing changed.  When it succeeds and the deletion of the account
    fails: 500 as well, and the document stays deleted while the account
    stays.  When both succeed: 200, and both are gone.  No other document
    and no other account is touched in any case. *)
Theorem account_deletion (req : Request) (w : World) (u : Identity) :
  req_user req = Some u ->
  response w = None ->
  (forall e,
     outcome (db_delete users (id_uid u)) w = Throw e ->
     response (snd (delete_user req w)) = Some delete_failed_response
     /\ calls (snd (delete_user req w))
        = calls w ++ [CallDocDelete users (id_uid u)]
     /\ documents (collab (snd (delete_user req w))) = documents (collab w)
     /\ principals (collab (snd (delete_user req w))) = principals (collab w))
  /\ (forall t e,
        outcome (db_delete users (id_uid u)) w = Ok t ->
        outcome (auth_deleteUser (id_uid u))
                (snd (db_delete users (id_uid u) w)) = Throw e ->
        response (snd (delete_user req w)) = Some delete_failed_response
        /\ calls (snd (delete_user req w))
           = calls w ++ [CallDocDelete users (id_uid u);
                         CallDeleteUser (id_uid u)]
        /\ documents (collab (snd (delete_user req w)))
           = delete (users, id_uid u) (documents (collab w))
        /\ principals (collab (snd (delete_user req w)))
           = principals (collab w))
  /\ (forall t t',
        outcome (db_delete users (id_uid u)) w = Ok t ->
        outcome (auth_deleteUser (id_uid u))
                (snd (db_delete users (id_uid u) w)) = Ok t' ->
        response (snd (delete_user req w)) = Some deleted_response
        /\ calls (snd (delete_user req w))
           = calls w ++ [CallDocDelete users (id_uid u);
                         CallDeleteUser (id_uid u)]
        /\ documents (collab (snd (delete_user req w)))
           = delete (users, id_uid u) (documents (collab w))
        /\ principals (collab (snd (delete_user req w)))
           = delete (id_uid u) (principals (collab w)))
  /\ (forall key,
        key <> (users, id_uid u) ->
        documents (collab (snd (delete_user req w))) !! key
        = documents (collab w) !! key)
  /\ (forall uid,
        uid <> id_uid u ->
        principals (collab (snd (delete_user req w))) !! uid
        = principals (collab w) !! uid).
Proof.
  intros Hu Hr. destruct w as [[v ps ds fs us uc] rt t0 cs r].
  cbn in Hr. subst r.
  unfold delete_user, req_user_uid, outcome, db_delete, auth_deleteUser,
    collaborator, deleteUser_sem.
  rewrite Hu. unfold_route. cbn.
  destruct fs as [|[e0|] [|[e1|] rest]]; cbn;
    try (destruct (ps !! id_uid u); cbn);
    repeat split; intros; try discriminate;
    rewrite <- ?app_assoc; try reflexivity;
    rewrite ?lookup_delete_ne by congruence; reflexivity.
Qed.

Lemma account_deletion_witness :
  req_user empty_update_request = Some demo_identity
  /\ response demo_world = None
  /\ response (snd (delete_user empty_update_request demo_world))
     = Some delete_failed_response
  /\ documents (collab (snd (delete_user empty_update_request demo_world)))
     = delete (users, js "u1") (documents (collab demo_world)).
Proof.
  split; [reflexivity|]. split; [reflexivity|].
  destruct (proj1 (proj2 (account_deletion empty_update_request demo_world
                            demo_identity eq_refl eq_refl))
              tt
              (FirebaseAuthError "auth/user-not-found"
                 "There is no user record corresponding to the provided identifier")
              eq_refl eq_refl)
    as (Hr & _ & Hd & _).
  split; assumption.
Defined.

(** X6. Once an account and its document are deleted (200), a read of the
    profile for the same identity, which the gate still resolves as long
    as the token verifies, answers 404 [User not found]. *)
Theorem deleted_profile_reads_not_found (req : Request) (w : World)
    (u : Identity) :
  req_user req = Some u ->
  response w = None ->
  faults (collab w) = [] ->
  response (snd (delete_user req w)) = Some deleted_response ->
  forall req' rt',
    req_user req' = Some u ->
    response (run (get_user req') (collab (snd (delete_user req w))) rt')
    = Some not_found_response.
Proof.
  intros Hu Hr Hf Hdel req' rt' Hu'.
  destruct w as [[v ps ds fs us uc] rt t0 cs r]. cbn in Hr, Hf. subst r fs.
  revert Hdel.
  unfold run, get_user, delete_user, req_user_uid, db_get, db_delete,
    auth_deleteUser, collaborator, deleteUser_sem.
  rewrite Hu, Hu'. unfold_route. cbn.
  destruct (ps !! id_uid u); cbn; [|discriminate].
  intros _. now rewrite lookup_delete_eq.
Qed.

Lemma deleted_profile_reads_not_found_witness :
  req_user empty_update_request = Some demo_identity
  /\ response account_world = None
  /\ faults (collab account_world) = []
  /\ response (snd (delete_user empty_update_request account_world))
     = Some deleted_response
  /\ response (run (get_user empty_update_request)
                 (collab (snd (delete_user empty_update_request account_world)))
                 demo_runtime)
     = Some not_found_response.
Proof.
  assert (Hd : response (snd (delete_user empty_update_request account_world))
               = Some deleted_response) by (vm_compute; reflexivity).
  split; [reflexivity|]. split; [reflexivity|]. split; [reflexivity|].
  split; [exact Hd|].
  exact (deleted_profile_reads_not_found empty_update_request account_world
           demo_identity eq_refl eq_refl eq_refl Hd
           empty_update_request demo_runtime eq_refl).
Defined.

(** ** Handlers reached without an identity *)

(** X7. A handler of /auth/user that runs on a request without an
    identity (which the gate never lets happen) fails on [req.user.uid]
    before any call: it answers 500 with its own failure body, the call log
    and the collaborator are as they were. *)
Theorem handler_without_identity (ep : Endpoint) (h : Request -> M unit)
    (req : Request) (w : World) :
  gated_handler ep = Some h ->
  req_user req = None ->
  response w = None ->
  calls (snd (h req w)) = calls w
  /\ collab (snd (h req w)) = collab w
  /\ exists r,
       response (snd (h req w)) = Some r
       /\ status r = 500
       /\ has_string (body r) "error" /\ has_string (body r) "message".
Proof.
  intros Hh Hn Hr. destruct w as [c rt t0 cs r]. cbn in Hr. subst r.
  destruct ep; inversion Hh; subst h;
    unfold get_user, put_user, delete_user, req_user_uid, new_Date_toISOString;
    rewrite Hn; unfold_route; cbn;
    try (match goal with
         | |- context [length ?l] => destruct (length l)
         end; cbn);
    (split; [reflexivity|]); (split; [reflexivity|]);
    eexists; (split; [reflexivity|]); (split; [reflexivity|]);
    split; eexists; reflexivity.
Qed.

Lemma handler_without_identity_witness :
  gated_handler DELETE_auth_user = Some delete_user
  /\ req_user (inbound JUndefined [] []) = None
  /\ response account_world = None
  /\ calls (snd (delete_user (inbound JUndefined [] []) account_world))
     = calls account_world
  /\ collab (snd (delete_user (inbound JUndefined [] []) account_world))
     = collab account_world.
Proof.
  split; [reflexivity|]. split; [reflexivity|]. split; [reflexivity|].
  destruct (handler_without_identity DELETE_auth_user delete_user
              (inbound JUndefined [] []) account_world
              eq_refl eq_refl eq_refl) as (Hc & Hw & _).
  split; assumption.
Defined.

(** ** Every request is answered *)

Lemma quiet_ret {A} (a : A) : quiet (ret a).
Proof. intros w. reflexivity. Qed.

Lemma quiet_throw {A} (e : JsError) : quiet (@throw A e).
Proof. intros w. reflexivity. Qed.

Lemma quiet_bind {A B} (m : M A) (k : A -> M B) :
  quiet m -> (forall a, quiet (k a)) -> quiet (bind m k).
Proof.
  intros Hm Hk w. unfold bind. specialize (Hm w).
  destruct (m w) as [[a|e] w1]; cbn in *; [|exact Hm].
  now rewrite Hk.
Qed.

Lemma quiet_collaborator {A} k (sem : Collab -> Result A * Collab) :
  quiet (collaborator k sem).
Proof. intros w. apply collaborator_frame. Qed.

Lemma quiet_clock : quiet new_Date_toISOString.
Proof. intros w. reflexivity. Qed.

Lemma quiet_less_than v n : quiet (less_than v n).
Proof. intros w. reflexivity. Qed.

Lemma quiet_uid req : quiet (req_user_uid req).
Proof. unfold req_user_uid. destruct (req_user req); intros w; reflexivity. Qed.

Lemma clean_send st b : clean (send st b).
Proof. intros w Hw. unfold send. rewrite Hw. discriminate. Qed.

Lemma clean_throw e : clean (throw e).
Proof. intros w Hw. exact Hw. Qed.

Lemma clean_bind {A} (m : M A) (k : A -> M unit) :
  quiet m -> (forall a, clean (k a)) -> clean (bind m k).
Proof.
  intros Hm Hk w Hw. unfold bind. specialize (Hm w).
  destruct (m w) as [[a|e] w1] eqn:E; cbn in Hm.
  - apply Hk. congruence.
  - congruence.
Qed.

Lemma clean_try_catch (m : M unit) (h : JsError -> M unit) :
  clean m -> (forall e, clean (h e)) -> clean (try_catch m h).
Proof.
  intros Hm Hh w Hw. unfold try_catch. specialize (Hm w Hw).
  destruct (m w) as [[a|e] w1]; [exact Hm | now apply Hh].
Qed.

Lemma answers_clean (m : M unit) : answers m -> clean m.
Proof. intros Hm w Hw. destruct (Hm w Hw) as (w' & -> & Hr). exact Hr. Qed.

Lemma answers_send st b : answers (send st b).
Proof.
  intros w Hw. unfold send. rewrite Hw. eexists. split; [reflexivity|].
  discriminate.
Qed.

Lemma answers_try_catch (m : M unit) (h : JsError -> M unit) :
  clean m -> (forall e, answers (h e)) -> answers (try_catch m h).
Proof.
  intros Hm Hh w Hw. unfold try_catch. specialize (Hm w Hw).
  destruct (m w) as [[[]|e] w1]; [now exists w1 | now apply Hh].
Qed.

Lemma answers_async_call (m : M unit) : answers m -> answers (async_call m).
Proof.
  intros Hm w Hw. unfold async_call. destruct (Hm w Hw) as (w' & -> & Hr).
  now exists w'.
Qed.

(** Applies the rules above down the structure of a handler. *)
Ltac settle :=
  repeat match goal with
    | |- answers (try_catch _ _) => apply answers_try_catch; [| intros ?]
    | |- answers (send _ _) => apply answers_send
    | |- answers (async_call _) => apply answers_async_call
    | |- clean (try_catch _ _) => apply clean_try_catch; [| intros ?]
    | |- clean (send _ _) => apply clean_send
    | |- clean (throw _) => apply clean_throw
    | |- clean (bind _ _) => apply clean_bind; [| intros ?]
    | |- clean (async_call _) => apply answers_clean, answers_async_call
    | |- quiet (bind _ _) => apply quiet_bind; [| intros ?]
    | |- quiet (collaborator _ _) => apply quiet_collaborator
    | |- quiet new_Date_toISOString => apply quiet_clock
    | |- quiet (less_than _ _) => apply quiet_less_than
    | |- quiet (req_user_uid _) => apply quiet_uid
    | |- quiet (ret _) => apply quiet_ret
    | |- quiet (throw _) => apply quiet_throw
    | |- clean (if ?b then _ else _) => destruct b
    | |- quiet (if ?b then _ else _) => destruct b
    | |- clean (match ?x with _ => _ end) => destruct x
    | |- quiet (match ?x with _ => _ end) => destruct x
    end.

Lemma answers_register req : answers (post_register req).
Proof. unfold post_register, auth_createUser, db_set. settle. Qed.

Lemma answers_verify_token req : answers (post_verify_token req).
Proof. unfold post_verify_token, auth_verifyIdToken. settle. Qed.

Lemma answers_get_user req : answers (get_user req).
Proof. unfold get_user, db_get. settle. Qed.

Lemma answers_put_user req : answers (put_user req).
Proof. unfold put_user, auth_updateUser, db_update, db_get. settle. Qed.

Lemma answers_delete_user req : answers (delete_user req).
Proof. unfold delete_user, db_delete, auth_deleteUser. settle. Qed.

Lemma answers_gate req next :
  (forall req', answers (next req')) -> answers (verifyToken req next).
Proof.
  intros Hn.
  unfold verifyToken, auth_verifyIdToken, express_next, method_startsWith,
    method_split_at.
  settle. apply Hn.
Qed.

Lemma answers_route ep req : answers (route ep req).
Proof.
  destruct ep; unfold route, sync_route, async_route, error_handler,
    get_root, get_hello, post_palindrome, get_palindrome_word,
    split_reverse_join.
  - settle.
  - settle.
  - settle.
  - settle.
  - settle. apply answers_register.
  - settle. apply answers_gate. intros req'. apply answers_get_user.
  - settle. apply answers_gate. intros req'. apply answers_put_user.
  - settle. apply answers_gate. intros req'. apply answers_delete_user.
  - settle. apply answers_verify_token.
Qed.

(** X8. Every route answers every request: whatever the request and
    whatever the collaborator does, the route returns normally (no
    rejection is left behind, the global error handler included) and a
    response has been sent; a response is sent once only, since a second
    send throws. *)
Theorem every_request_is_answered (ep : Endpoint) (req : Request)
    (c : Collab) (rt : Runtime) :
  outcome (route ep req) (incoming c rt) = Ok tt
  /\ (exists r, response (serve ep req c rt) = Some r)
  /\ forall st b,
       outcome (send st b) (serve ep req c rt) = Throw ERR_HTTP_HEADERS_SENT
       /\ response (snd (send st b (serve ep req c rt)))
          = response (serve ep req c rt).
Proof.
  destruct (answers_route ep req (incoming c rt) eq_refl) as (w' & Hw & Hr).
  unfold outcome, serve. rewrite Hw. cbn [fst snd].
  destruct (response w') as [r|] eqn:Hresp; [|congruence].
  split; [reflexivity|]. split; [now exists r|].
  intros st b. unfold send. rewrite Hresp. cbn. now split.
Qed.

(** ** The palindrome endpoints, case by case *)

(** X9. POST /palindrome by the [word] of the body: a missing or falsy
    word (absent, [null], [false], [0], the empty string) gives 400
    [Please provide a word]; a truthy word that is not a string (a number,
    [true], an array, an object) has no [split], and the global error
    handler answers 500 [Something went wrong!]; a non-empty string gives
    200 with the word and its code units in the opposite order.  GET
    /palindrome/:word gives that 200 for every word.  Neither route calls
    the collaborator or changes anything but the response. *)
Theorem palindrome_cases (req : Request) (c : Collab) (rt : Runtime) :
  (truthy (obj_get (req_body req) (js "word")) = false ->
     serve POST_palindrome req c rt
     = mkWorld c rt 0 [] (Some (mkResponse 400 provide_a_word_body)))
  /\ (truthy (obj_get (req_body req) (js "word")) = true ->
      (forall s, obj_get (req_body req) (js "word") <> JStr s) ->
      serve POST_palindrome req c rt
      = mkWorld c rt 0 [] (Some (mkResponse 500 something_went_wrong_body)))
  /\ (forall s,
        obj_get (req_body req) (js "word") = JStr s -> s <> [] ->
        serve POST_palindrome req c rt
        = mkWorld c rt 0 []
            (Some (mkResponse 200 (palindrome_body s (rev s)))))
  /\ serve GET_palindrome_word req c rt
     = mkWorld c rt 0 []
         (Some (mkResponse 200
                  (palindrome_body (req_param_word req)
                     (rev (req_param_word req))))).
Proof.
  unfold serve, route, sync_route, post_palindrome, get_palindrome_word,
    error_handler, provide_a_word_body, something_went_wrong_body.
  unfold_route.
  split; [intros ->; reflexivity|]. split; [| split].
  - intros Ht Hs. rewrite Ht.
    destruct (obj_get (req_body req) (js "word")); try reflexivity.
    now destruct (Hs s).
  - intros s -> Hne. rewrite (truthy_nonempty s Hne), <- reverse_word_rev.
    reflexivity.
  - rewrite <- reverse_word_rev. reflexivity.
Qed.

(** X10. The reversal keeps the length of the word, reverses a
    concatenation piece by piece in the opposite order, and so swaps the
    two code units of a character that takes two (a surrogate pair comes
    out low surrogate first). *)
Theorem reversal_structure (a b : jsstring) (hi lo : N) :
  length (reverse_word a) = length a
  /\ reverse_word (a ++ b) = reverse_word b ++ reverse_word a
  /\ reverse_word (a ++ [hi; lo] ++ b)
     = reverse_word b ++ [lo; hi] ++ reverse_word a.
Proof.
  rewrite !reverse_word_rev. split; [apply List.length_rev|].
  split; [apply List.rev_app_distr|].
  rewrite !List.rev_app_distr, <- List.app_assoc. reflexivity.
Qed.

(** ** POST /auth/verify-token and the gate *)

Lemma verify_token_run req c rt :
  truthy (obj_get (req_body req) (js "idToken")) = true ->
  serve POST_auth_verify_token req c rt
  = match auth_verifyIdToken (obj_get (req_body req) (js "idToken"))
            (incoming c rt) with
    | (Ok d, w1) => set_response (mkResponse 200 (valid_token_verdict d)) w1
    | (Throw _, w1) => set_response (mkResponse 401 invalid_token_verdict) w1
    end.
Proof.
  intros Ht. unfold serve, route, post_verify_token, auth_verifyIdToken,
    collaborator. unfold_route. rewrite Ht. cbn.
  by_fault c; cbn;
    try (destruct (verifier c (obj_get (req_body req) (js "idToken"))); cbn);
    reflexivity.
Qed.

Lemma split_at_whole (t : jsstring) :
  contains t Bearer = false -> split_at (Bearer ++ t) Bearer 1 = JStr t.
Proof.
  intros Hc. rewrite split_at_bearer.
  destruct (first_piece Bearer ltac:(discriminate) t [])
    as (p & rest & ps & -> & Ht & [-> | Hr] & _); cbn [rev app].
  - now rewrite Ht, List.app_nil_r.
  - rewrite Ht, (contains_after p rest Bearer Hr) in Hc. discriminate.
Qed.

(** X11. The verification endpoint and the mandatory gate give the same
    verdict on a token (a non-empty string without the marker in it): when
    the verification call succeeds, POST /auth/verify-token with the token
    answers 200 [valid: true] and the gate admits the header [Bearer ]
    followed by the token, with the identity of the same decoded token;
    when the call fails, the endpoint answers 401 [valid: false] and the
    gate admits nothing. *)
Theorem token_verdicts_agree (t : jsstring) (req req' : Request) (c : Collab)
    (rt : Runtime) :
  t <> [] ->
  contains t Bearer = false ->
  obj_get (req_body req) (js "idToken") = JStr t ->
  req_authorization req' = JStr (Bearer ++ t) ->
  match outcome (auth_verifyIdToken (JStr t)) (incoming c rt) with
  | Ok d =>
      response (serve POST_auth_verify_token req c rt)
      = Some (mkResponse 200 (valid_token_verdict d))
      /\ gate_admits req' c rt = Some (identity_of d)
  | Throw _ =>
      response (serve POST_auth_verify_token req c rt)
      = Some (mkResponse 401 invalid_token_verdict)
      /\ gate_admits req' c rt = None
  end.
Proof.
  intros Hne Hc Hbody Hhead.
  assert (Ht : truthy (obj_get (req_body req) (js "idToken")) = true)
    by (rewrite Hbody; now apply truthy_nonempty).
  rewrite (verify_token_run req c rt Ht), Hbody.
  unfold gate_admits. rewrite Hhead.
  change (js "Bearer ") with Bearer.
  rewrite startsWith_app, (split_at_whole t Hc).
  unfold outcome.
  destruct (auth_verifyIdToken (JStr t) (incoming c rt)) as [[d|e] w1];
    cbn; split; reflexivity.
Qed.

Lemma token_verdicts_agree_witness :
  js "good" <> []
  /\ contains (js "good") Bearer = false
  /\ response (serve POST_auth_verify_token good_token_request demo_collab
                 demo_runtime)
     = Some (mkResponse 200 (valid_token_verdict demo_token))
  /\ gate_admits (inbound (JStr (js "Bearer good")) [] []) demo_collab
                 demo_runtime
     = Some (identity_of demo_token).
Proof.
  split; [discriminate|]. split; [reflexivity|].
  exact (token_verdicts_agree (js "good") good_token_request
           (inbound (JStr (js "Bearer good")) [] []) demo_collab demo_runtime
           ltac:(discriminate) eq_refl eq_refl eq_refl).
Defined.

(** X12. POST /auth/verify-token only reads: with a truthy [idToken] it
    makes one call, the verification of that value as it came (a string or
    not), and with a falsy one it makes none; accounts and documents are
    never changed. *)
Theorem verify_token_reads_only (req : Request) (c : Collab) (rt : Runtime) :
  calls (serve POST_auth_verify_token req c rt)
  = (if truthy (obj_get (req_body req) (js "idToken"))
     then [CallVerifyIdToken (obj_get (req_body req) (js "idToken"))]
     else [])
  /\ principals (collab (serve POST_auth_verify_token req c rt))
     = principals c
  /\ documents (collab (serve POST_auth_verify_token req c rt)) = documents c.
Proof.
  destruct (truthy (obj_get (req_body req) (js "idToken"))) eqn:Ht.
  - rewrite (verify_token_run req c rt Ht).
    pose proof (verifyIdToken_world (obj_get (req_body req) (js "idToken"))
                  c rt) as (_ & Hc & _ & _ & Hps & Hds).
    cbv zeta in Hc, Hps, Hds.
    destruct (auth_verifyIdToken _ _) as [[d|e] w1]; cbn in *; auto.
  - unfold serve, route, post_verify_token. unfold_route. rewrite Ht.
    cbn. auto.
Qed.

(** ** Registration, beyond the answer *)

Lemma register_passed_validation req c rt r :
  response (serve POST_auth_register req c rt) = Some r ->
  status r <> 400 ->
  truthy (body_email req) = true
  /\ truthy (body_password req) = true
  /\ js_lt rt (js_length (body_password req)) 6 = false.
Proof.
  intros Hr Hst.
  destruct (truthy (body_email req)) eqn:He;
    [| rewrite register_rejected_early in Hr by (now left);
       injection Hr as <-; now destruct Hst].
  destruct (truthy (body_password req)) eqn:Hp;
    [| rewrite register_rejected_early in Hr by (now right);
       injection Hr as <-; now destruct Hst].
  destruct (js_lt rt (js_length (body_password req)) 6) eqn:Hl;
    [rewrite register_too_short in Hr by assumption;
     injection Hr as <-; now destruct Hst | auto].
Qed.

(** X13. Registration is not atomic: when the principal has been created
    and the write of the profile document then fails, the answer is a
    failure, the account exists without a document, and no call is made to
    take it back (the log ends with the failed write). *)
Theorem registration_leaves_orphan (req : Request) (c : Collab) (rt : Runtime)
    (u : UserRecord) (e : JsError) :
  truthy (body_email req) = true ->
  truthy (body_password req) = true ->
  js_lt rt (js_length (body_password req)) 6 = false ->
  outcome (auth_createUser (registration_props req)) (incoming c rt) = Ok u ->
  outcome (db_set users (ur_uid u)
             (user_document u (body_displayName req) (body_photoURL req)
                (iso_time rt 0%nat) (iso_time rt 1%nat)))
          (after_creation req c rt) = Throw e ->
  (exists p,
      principals (collab (serve POST_auth_register req c rt)) !! ur_uid u
      = Some p)
  /\ documents (collab (serve POST_auth_register req c rt)) = documents c
  /\ (exists r,
        response (serve POST_auth_register req c rt) = Some r
        /\ is_failure r)
  /\ calls (serve POST_auth_register req c rt)
     = [CallCreateUser (registration_props req);
        CallDocSet users (ur_uid u)
          (user_document u (body_displayName req) (body_photoURL req)
             (iso_time rt 0%nat) (iso_time rt 1%nat))].
Proof.
  intros He Hp Hl Ho Hs.
  rewrite (register_validated req c rt He Hp Hl).
  destruct (auth_createUser_stores (registration_props req) (incoming c rt))
    as (Hdocs & _ & Hok).
  destruct (Hok u Ho) as (p & Hps & _).
  destruct (db_set_stores users (ur_uid u)
              (user_document u (body_displayName req) (body_photoURL req)
                 (iso_time rt 0%nat) (iso_time rt 1%nat))
              (after_creation req c rt)) as (Hsp & Hsd & _).
  specialize (Hsd e Hs).
  rewrite (outcome_split (auth_createUser (registration_props req))
             (incoming c rt)), Ho.
  cbv zeta. rewrite (outcome_split (db_set _ _ _)), Hs.
  set (w2 := snd (db_set _ _ _ _)) in *. cbn.
  split; [exists p; rewrite Hsp, after_creation_collab, Hps;
          apply lookup_insert_eq|].
  split; [rewrite Hsd, after_creation_collab; exact Hdocs|].
  split; [| reflexivity].
  eexists. split; [reflexivity|].
  unfold is_failure. destruct (strict_eq_str _ _); cbn; lia.
Qed.

Lemma registration_leaves_orphan_witness :
  truthy (body_email named_request) = true
  /\ truthy (body_password named_request) = true
  /\ js_lt demo_runtime (js_length (body_password named_request)) 6 = false
  /\ (exists p,
        principals (collab (serve POST_auth_register named_request
                              (set_faults [None; Some transport_fault]
                                 demo_collab) demo_runtime)) !! demo_uid 0
        = Some p)
  /\ documents (collab (serve POST_auth_register named_request
                          (set_faults [None; Some transport_fault]
                             demo_collab) demo_runtime))
     = documents (set_faults [None; Some transport_fault] demo_collab).
Proof.
  split; [reflexivity|]. split; [reflexivity|]. split; [reflexivity|].
  destruct (registration_leaves_orphan named_request
              (set_faults [None; Some transport_fault] demo_collab)
              demo_runtime
              (mkUserRecord (demo_uid 0) (JStr (js "ann@example.com"))
                 (JStr (js "Ann")) JUndefined (JBool false))
              transport_fault eq_refl eq_refl eq_refl)
    as (Hp & Hd & _); [vm_compute; reflexivity | vm_compute; reflexivity |].
  split; assumption.
Defined.

(** X14. What a registration stores can be read back: after a successful
    registration (201, no fault scheduled) GET /auth/user for the identity
    of the new account answers 200 with the very document that the
    registration wrote. *)
Theorem registered_profile_reads_back (req : Request) (c : Collab)
    (rt : Runtime) (r : Response) :
  faults c = [] ->
  response (serve POST_auth_register req c rt) = Some r ->
  status r = 201 ->
  exists u,
    outcome (auth_createUser (registration_props req)) (incoming c rt) = Ok u
    /\ forall req' rt' ident,
         req_user req' = Some ident ->
         id_uid ident = ur_uid u ->
         response (run (get_user req')
                     (collab (serve POST_auth_register req c rt)) rt')
         = Some (mkResponse 200
                   (JObj [(js "user",
                           user_document u (body_displayName req)
                             (body_photoURL req)
                             (iso_time rt 0%nat) (iso_time rt 1%nat))])).
Proof.
  intros Hf Hr Hst.
  destruct (register_passed_validation req c rt r Hr) as (He & Hp & Hl);
    [rewrite Hst; discriminate|].
  rewrite (register_validated req c rt He Hp Hl) in Hr |- *.
  unfold after_creation, outcome, auth_createUser, db_set, collaborator in *.
  cbn in Hr |- *. rewrite Hf in Hr |- *. cbn in Hr |- *.
  destruct (createUser_sem (registration_props req) c) as [[u|e] c1] eqn:Hc;
    cbn in Hr |- *.
  2:{ destruct (strict_eq_str _ _); injection Hr as <-; discriminate. }
  destruct (createUser_sem_ok _ _ _ _ Hc) as (_ & _ & _ & _ & _ & _ & _ & Hf1).
  rewrite Hf1, Hf in Hr |- *. cbn in Hr |- *.
  exists u. split; [reflexivity|].
  intros req' rt' ident Hu Hid.
  unfold run, get_user, req_user_uid, db_get, collaborator.
  rewrite Hu. unfold_route. cbn. rewrite Hf1, Hf. cbn.
  now rewrite Hid, lookup_insert_eq.
Qed.

Lemma registered_profile_reads_back_witness :
  faults demo_collab = []
  /\ response (run (get_user (with_user (inbound JUndefined [] [])
                                (mkIdentity (demo_uid 0) JUndefined JUndefined
                                   JUndefined JUndefined)))
                 registered_collab demo_runtime)
     = Some (mkResponse 200
               (JObj [(js "user",
                       user_document
                         (mkUserRecord (demo_uid 0)
                            (JStr (js "ann@example.com"))
                            (JStr (js "Ann")) JUndefined (JBool false))
                         (JStr (js "Ann")) JUndefined
                         (demo_clock 0) (demo_clock 1))])).
Proof.
  split; [reflexivity|].
  assert (Hr : response (serve POST_auth_register named_request demo_collab
                           demo_runtime)
               = Some (mkResponse 201
                         (registered_body
                            (mkUserRecord (demo_uid 0)
                               (JStr (js "ann@example.com"))
                               (JStr (js "Ann")) JUndefined (JBool false)))))
    by (vm_compute; reflexivity).
  destruct (registered_profile_reads_back named_request demo_collab
              demo_runtime _ eq_refl Hr eq_refl) as (u & Hu & Hget).
  vm_compute in Hu. injection Hu as <-.
  exact (Hget (with_user (inbound JUndefined [] [])
                 (mkIdentity (demo_uid 0) JUndefined JUndefined JUndefined
                    JUndefined))
              demo_runtime
              (mkIdentity (demo_uid 0) JUndefined JUndefined JUndefined
                 JUndefined)
              eq_refl eq_refl).
Defined.


(** ** PUT /auth/user, call by call *)

(** X16. A profile update makes its calls in one order, the account
    update (if the body asks for one), the update of the document, the
    read of the document, and may stop after any of them; its answer is
    200 or 500 [Failed to update user]; when it is 200 all the calls have
    been made, and the [user] of the body is the document as it is stored
    after the update (or nothing, should the read find none). *)
Theorem profile_update_sequence (req : Request) (w : World) (u : Identity) :
  req_user req = Some u ->
  response w = None ->
  (exists n,
      calls (snd (put_user req w))
      = calls w
        ++ firstn (S n) (update_calls req u (iso_time (runtime w) (ticks w))))
  /\ forall r,
       response (snd (put_user req w)) = Some r ->
       (status r = 200 \/ r = update_failed_response)
       /\ (status r = 200 ->
           calls (snd (put_user req w))
           = calls w ++ update_calls req u (iso_time (runtime w) (ticks w))
           /\ body r
              = updated_body
                  (match documents (collab (snd (put_user req w)))
                           !! (users, id_uid u) with
                   | Some d => d
                   | None => JUndefined
                   end)).
Proof.
  intros Hu Hr. destruct w as [c rt t0 cs r0]. cbn in Hr. subst r0.
  rewrite (put_user_run req c rt t0 cs u Hu). unfold update_calls.
  unfold auth_updateUser, db_update, db_get, collaborator. cbn.
  destruct (length (obj_keys (auth_updates_of req))); cbn;
    through_put_user;
    (split;
     [ first [ exists 2%nat; rewrite <- ?app_assoc; reflexivity
             | exists 1%nat; rewrite <- ?app_assoc; reflexivity
             | exists 0%nat; rewrite <- ?app_assoc; reflexivity ]
     | intros r Hr; injection Hr as <-; cbn;
       split; [auto | intros H200; try discriminate;
                      rewrite <- ?app_assoc; split; reflexivity] ]).
Qed.

Lemma profile_update_sequence_witness :
  req_user rename_request = Some demo_identity
  /\ response account_world = None
  /\ calls (snd (put_user rename_request account_world))
     = calls account_world
       ++ update_calls rename_request demo_identity
            (iso_time (runtime account_world) (ticks account_world)).
Proof.
  split; [reflexivity|]. split; [reflexivity|].
  destruct (profile_update_sequence rename_request account_world
              demo_identity eq_refl eq_refl) as [_ H].
  eassert (E : response (snd (put_user rename_request account_world))
               = Some _) by (vm_compute; reflexivity).
  destruct (H _ E) as [_ H200]. apply H200. reflexivity.
Defined.

Lemma auth_updateUser_documents uid props w :
  documents (collab (snd (auth_updateUser uid props w))) = documents (collab w).
Proof.
  unfold auth_updateUser.
  destruct (collaborator_cases (CallUpdateUser uid props)
              (updateUser_sem uid props) w)
    as [(e & rest & _ & ->) | (c0 & Hc0 & ->)]; cbn; [reflexivity|].
  destruct (updateUser_sem_stores uid props c0) as (-> & _).
  destruct Hc0 as [-> | (rest & _ & ->)]; reflexivity.
Qed.

Lemma db_update_failed coll id us w e :
  outcome (db_update coll id us) w = Throw e ->
  principals (collab (snd (db_update coll id us w))) = principals (collab w)
  /\ documents (collab (snd (db_update coll id us w))) = documents (collab w).
Proof.
  unfold outcome, db_update.
  destruct (collaborator_cases (CallDocUpdate coll id us)
              (db_update_sem coll id us) w)
    as [(e' & rest & _ & ->) | (c0 & Hc0 & ->)]; cbn; [auto|].
  intros He.
  destruct (db_update_sem_stores coll id us c0) as (-> & _ & Hd & _).
  rewrite (Hd e He).
  destruct Hc0 as [-> | (rest & _ & ->)]; auto.
Qed.

(** X17. A profile update is not atomic either: when the account update
    has succeeded and the update of the document then fails (there is no
    document, say), the answer is 500 [Failed to update user], the account
    keeps what the update gave it, the documents are as they were, and no
    further call is made. *)
Theorem profile_update_no_rollback (req : Request) (w : World) (u : Identity)
    (t : unit) (e : JsError) :
  req_user req = Some u ->
  response w = None ->
  (0 < length (obj_keys (auth_updates_of req)))%nat ->
  outcome (auth_updateUser (id_uid u) (auth_updates_of req))
          (snd (new_Date_toISOString w)) = Ok t ->
  outcome (db_update users (id_uid u)
             (updates_of req (iso_time (runtime w) (ticks w))))
          (snd (auth_updateUser (id_uid u) (auth_updates_of req)
                  (snd (new_Date_toISOString w)))) = Throw e ->
  response (snd (put_user req w)) = Some update_failed_response
  /\ calls (snd (put_user req w))
     = calls w
       ++ [CallUpdateUser (id_uid u) (auth_updates_of req);
           CallDocUpdate users (id_uid u)
             (updates_of req (iso_time (runtime w) (ticks w)))]
  /\ principals (collab (snd (put_user req w)))
     = principals
         (collab (snd (auth_updateUser (id_uid u) (auth_updates_of req)
                         (snd (new_Date_toISOString w)))))
  /\ documents (collab (snd (put_user req w))) = documents (collab w).
Proof.
  intros Hu Hr Hlen Ho He. destruct w as [c rt t0 cs r0]. cbn in Hr. subst r0.
  rewrite (put_user_run req c rt t0 cs u Hu). cbv zeta.
  apply Nat.ltb_lt in Hlen. rewrite Hlen.
  change (snd (new_Date_toISOString (mkWorld c rt t0 cs None)))
    with (mkWorld c rt (S t0) cs None) in Ho, He |- *.
  change (iso_time (runtime (mkWorld c rt t0 cs None))
            (ticks (mkWorld c rt t0 cs None)))
    with (iso_time rt t0) in He |- *.
  change (calls (mkWorld c rt t0 cs None)) with cs.
  change (collab (mkWorld c rt t0 cs None)) with c.
  pose proof (auth_updateUser_documents (id_uid u) (auth_updates_of req)
                (mkWorld c rt (S t0) cs None)) as Hdocs.
  destruct (collaborator_frame (CallUpdateUser (id_uid u) (auth_updates_of req))
              (updateUser_sem (id_uid u) (auth_updates_of req))
              (mkWorld c rt (S t0) cs None)) as (Hr1 & Hc1 & _).
  fold (auth_updateUser (id_uid u) (auth_updates_of req)) in Hr1, Hc1.
  rewrite (outcome_split (auth_updateUser _ _)), Ho.
  set (w1 := snd (auth_updateUser _ _ _)) in *.
  destruct (db_update_failed _ _ _ w1 e He) as (Hp2 & Hd2).
  destruct (collaborator_frame
              (CallDocUpdate users (id_uid u) (updates_of req (iso_time rt t0)))
              (db_update_sem users (id_uid u) (updates_of req (iso_time rt t0)))
              w1) as (Hr2 & Hc2 & _).
  fold (db_update users (id_uid u) (updates_of req (iso_time rt t0)))
    in Hr2, Hc2.
  rewrite (outcome_split (db_update _ _ _)), He.
  set (w2 := snd (db_update _ _ _ _)) in *. cbn.
  split; [reflexivity|]. split; [| split].
  - rewrite Hc2, Hc1. cbn. now rewrite <- app_assoc.
  - exact Hp2.
  - rewrite Hd2. exact Hdocs.
Qed.

Lemma profile_update_no_rollback_witness :
  req_user rename_request = Some demo_identity
  /\ response orphan_world = None
  /\ (0 < length (obj_keys (auth_updates_of rename_request)))%nat
  /\ response (snd (put_user rename_request orphan_world))
     = Some update_failed_response
  /\ p_displayName
       <$> (principals (collab (snd (put_user rename_request orphan_world)))
              !! js "u1")
     = Some (JStr (js "Anna")).
Proof.
  split; [reflexivity|]. split; [reflexivity|]. split; [vm_compute; lia|].
  destruct (profile_update_no_rollback rename_request orphan_world
              demo_identity tt
              (FirestoreError 5 "NOT_FOUND: No document to update")
              eq_refl eq_refl ltac:(vm_compute; lia))
    as (Hr & _ & Hp & _); [vm_compute; reflexivity | vm_compute; reflexivity |].
  split; [exact Hr|]. rewrite Hp. vm_compute. reflexivity.
Defined.

(** ** src/config/firebase.js *)

Lemma unescape_cons (c : N) (s : jsstring) :
  unescape_newlines (c :: s)
  = match s with
    | d :: rest =>
        if (c =? 92)%N && (d =? 110)%N
        then 10%N :: unescape_newlines rest
        else c :: unescape_newlines s
    | [] => [c]
    end.
Proof. reflexivity. Qed.

Lemma starts_with_escape (a b : N) (s : jsstring) :
  startsWith (a :: b :: s) escaped_newline = (a =? 92)%N && (b =? 110)%N.
Proof.
  unfold escaped_newline. cbn [startsWith].
  rewrite (N.eqb_sym 92 a), (N.eqb_sym 110 b).
  destruct s; now rewrite andb_true_r.
Qed.

Lemma one_unit_is_no_escape (a : N) : startsWith [a] escaped_newline = false.
Proof. unfold escaped_newline. cbn [startsWith]. apply andb_false_r. Qed.

(** The unescaped text starts with a line feed or with the first code
    unit of the escaped text, and an escape at its front can only be one
    that was not at the front before. *)
Lemma unescape_bounded (n : nat) :
  forall s, (length s <= n)%nat ->
    contains (unescape_newlines s) escaped_newline = false
    /\ (length (unescape_newlines s) <= length s)%nat
    /\ (forall x out, unescape_newlines s = x :: out ->
          x = 10%N \/ exists s', s = x :: s').
Proof.
  induction n as [|n IH]; intros s Hlen.
  - destruct s; [|cbn in Hlen; lia]. cbn. repeat split; auto.
    intros x out H; discriminate.
  - destruct s as [|c s]; [cbn; repeat split; auto; intros x out H; discriminate|].
    rewrite unescape_cons. destruct s as [|d rest].
    + split; [| split].
      * cbn [contains]. now rewrite one_unit_is_no_escape.
      * cbn. lia.
      * intros x out H. injection H as <- <-. right. now exists [].
    + destruct ((c =? 92)%N && (d =? 110)%N) eqn:E.
      * destruct (IH rest ltac:(cbn in Hlen; lia)) as (Hc & Hl & Hh).
        split; [| split].
        -- cbn [contains]. rewrite Hc, orb_false_r.
           destruct (unescape_newlines rest) as [|x out] eqn:Eu;
             [apply one_unit_is_no_escape|].
           rewrite starts_with_escape. reflexivity.
        -- cbn [length]. lia.
        -- intros x out H. injection H as <- <-. now left.
      * destruct (IH (d :: rest) ltac:(cbn in Hlen |- *; lia)) as (Hc & Hl & Hh).
        split; [| split].
        -- cbn [contains]. rewrite Hc, orb_false_r.
           destruct (unescape_newlines (d :: rest)) as [|x out] eqn:Eu;
             [apply one_unit_is_no_escape|].
           rewrite starts_with_escape.
           destruct (Hh x out eq_refl) as [-> | (s' & Hs')].
           ++ apply andb_false_r.
           ++ injection Hs' as -> _. exact E.
        -- cbn [length] in *. lia.
        -- intros x out H. injection H as <- <-. right. now eexists.
Qed.

Lemma unescape_nothing (n : nat) :
  forall s, (length s <= n)%nat ->
    contains s escaped_newline = false -> unescape_newlines s = s.
Proof.
  induction n as [|n IH]; intros s Hlen Hc.
  - destruct s; [reflexivity | cbn in Hlen; lia].
  - destruct s as [|c s]; [reflexivity|].
    rewrite unescape_cons. destruct s as [|d rest]; [reflexivity|].
    cbn [contains] in Hc. apply orb_false_iff in Hc as [Hs Hc].
    rewrite starts_with_escape in Hs.
    rewrite Hs. f_equal. apply IH; [cbn in Hlen |- *; lia | exact Hc].
Qed.

(** X18. The replacement applied to the private key of the environment
    turns every escaped line feed (a backslash followed by [n]) into a
    line feed: none is left in the result, the result is never longer than
    the key, a key without any comes out unchanged, and applying the
    replacement again changes nothing. *)
Theorem private_key_unescaping (s : jsstring) :
  contains (unescape_newlines s) escaped_newline = false
  /\ (length (unescape_newlines s) <= length s)%nat
  /\ (contains s escaped_newline = false -> unescape_newlines s = s)
  /\ unescape_newlines (unescape_newlines s) = unescape_newlines s.
Proof.
  destruct (unescape_bounded (length s) s (le_n _)) as (Hc & Hl & _).
  split; [exact Hc|]. split; [exact Hl|]. split.
  - apply (unescape_nothing (length s)). lia.
  - apply (unescape_nothing (length (unescape_newlines s))); [lia | exact Hc].
Qed.

(** The start-up with the three variables set and an SDK that accepts
    them: the app is initialised with the key unescaped. *)
Example startup_from_variables :
  firebase_startup demo_sdk demo_env
  = Initialized
      (JObj (app_options demo_env
               (JObj [(js "projectId", JStr (js "demo"));
                      (js "privateKey",
                       JStr (js "-----BEGIN-----" ++ [10%N] ++ js "abc"
                             ++ [10%N] ++ js "-----END-----" ++ [10%N]));
                      (js "clientEmail", JStr (js "sdk@demo.iam"))]))).
Proof. vm_compute. reflexivity. Qed.

Lemma truthy_getenv (env : Env) (name : string) :
  truthy (getenv env name) = true ->
  exists s, getenv env name = JStr s /\ s <> [].
Proof.
  unfold getenv. destruct (env !! js name) as [s|]; [|discriminate].
  intros H. exists s. split; [reflexivity|]. now destruct s.
Qed.

(** X19. The initialisation block of the Firebase Admin SDK (the [try]
    statement of the module) ends in one of two ways: the process exits
    with code 1, or the app is the one [initializeApp]
    returned for a credential that [credential.cert] made from exactly one
    service account: the decoded FIREBASE_SERVICE_ACCOUNT_BASE64 whenever
    that variable is set and non-empty (the three other variables are then
    not looked at), and otherwise the three variables FIREBASE_PROJECT_ID,
    FIREBASE_PRIVATE_KEY and FIREBASE_CLIENT_EMAIL, all set and non-empty,
    the private key with no escaped line feed left in it. *)
Theorem startup_outcomes (sdk : AdminSdk) (env : Env) :
  firebase_startup sdk env = Exited 1
  \/ exists account credential app,
       firebase_startup sdk env = Initialized app
       /\ credential_cert sdk account = Ok credential
       /\ initializeApp sdk (app_options env credential) = Ok app
       /\ if truthy (getenv env "FIREBASE_SERVICE_ACCOUNT_BASE64")
          then parse_base64_json sdk
                 (getenv env "FIREBASE_SERVICE_ACCOUNT_BASE64") = Ok account
          else exists project key email,
                 getenv env "FIREBASE_PROJECT_ID" = JStr project
                 /\ getenv env "FIREBASE_PRIVATE_KEY" = JStr key
                 /\ getenv env "FIREBASE_CLIENT_EMAIL" = JStr email
                 /\ project <> [] /\ key <> [] /\ email <> []
                 /\ account
                    = JObj [(js "projectId", JStr project);
                            (js "privateKey", JStr (unescape_newlines key));
                            (js "clientEmail", JStr email)]
                 /\ contains (unescape_newlines key) escaped_newline = false.
Proof.
  unfold firebase_startup, initialize_with, result_bind.
  fold (app_options env).
  destruct (truthy (getenv env "FIREBASE_SERVICE_ACCOUNT_BASE64")) eqn:Eb.
  - destruct (parse_base64_json sdk _) as [account|e] eqn:Ep; [|now left].
    destruct (credential_cert sdk account) as [credential|e] eqn:Ec;
      [|now left].
    change [(js "credential", credential);
            (js "databaseURL", getenv env "FIREBASE_DATABASE_URL")]
      with (app_options env credential).
    destruct (initializeApp sdk (app_options env credential)) as [app|e] eqn:Ei;
      [|now left].
    right. exists account, credential, app. auto.
  - destruct (truthy (getenv env "FIREBASE_PROJECT_ID")) eqn:E1; [|now left].
    destruct (truthy (getenv env "FIREBASE_PRIVATE_KEY")) eqn:E2; [|now left].
    destruct (truthy (getenv env "FIREBASE_CLIENT_EMAIL")) eqn:E3; [|now left].
    cbn [andb].
    destruct (truthy_getenv _ _ E1) as (project & Hp & Np).
    destruct (truthy_getenv _ _ E2) as (key & Hk & Nk).
    destruct (truthy_getenv _ _ E3) as (email & He & Ne).
    rewrite Hp, Hk, He. cbn [unescaped].
    destruct (credential_cert sdk _) as [credential|e] eqn:Ec; [|now left].
    change [(js "credential", credential);
            (js "databaseURL", getenv env "FIREBASE_DATABASE_URL")]
      with (app_options env credential).
    destruct (initializeApp sdk (app_options env credential)) as [app|e] eqn:Ei;
      [|now left].
    right. eexists _, credential, app.
    split; [reflexivity|]. split; [exact Ec|]. split; [exact Ei|].
    exists project, key, email. repeat (split; [assumption || reflexivity|]).
    apply (unescape_bounded (length key) key (le_n _)).
Qed.
